(** * google_sheets_api_export.py: the CSV export of a spreadsheet's tabs

    A shallow embedding of [export_sheet_to_csv] and [download_all_sheets]
    and the properties of the CSV text they produce.

    Conventions.
    - A Python [str] is a [string]; a non-ASCII code point is carried as the
      bytes of its UTF-8 encoding.  The three characters the script tests
      for (comma, double quote, line feed) and the slash are ASCII, and an
      ASCII byte never occurs inside a multi-byte UTF-8 sequence, so the
      membership tests and the replacements agree with the ones on code
      points.
    - A cell is a decoded JSON scalar: a string, an integer, a boolean or
      null.  Floats are left out: the text [str] gives a float is not
      modelled.
    - The Sheets client is a collaborator: it is a value of type [Service]
      handed to the functions, and its calls always return.
    - The console and the file system are an explicit [World] threaded
      through the functions.  Writing a file always succeeds.
    - [os.makedirs] is library code: what it makes of the directories, or
      that it raises, is the parameter [Os] of the functions that call it.
    - The login of the auth library may print before it returns or raises:
      the lines it prints are part of what it gives. *)

From Stdlib Require Import ZArith Ascii DecimalString DecimalZ DecimalPos.
From stdpp Require Import gmap strings list fin_maps.

(** ** Python built-ins the script calls *)

Module Py.

(** [chr(n)] for n < 256. *)
Definition chr (n : nat) : ascii := ascii_of_nat n.

Definition COMMA : ascii := ","%char.
Definition QUOTE : ascii := chr 34.
Definition LF : ascii := "010"%char.
Definition SLASH : ascii := "/"%char.
Definition UNDERSCORE : ascii := "_"%char.

(** A one-character string. *)
Definition char (c : ascii) : string := String c EmptyString.

(** [c in s] where [c] is a one-character string. *)
Fixpoint contains (c : ascii) (s : string) : bool :=
  match s with
  | EmptyString => false
  | String x s' => if Ascii.eqb c x then true else contains c s'
  end.

(** [s.replace(old, new)] where [old] is a one-character string; both
    calls of the script are of this form. *)
Fixpoint replace (old : ascii) (new : string) (s : string) : string :=
  match s with
  | EmptyString => EmptyString
  | String x s' =>
      if Ascii.eqb x old then new +:+ replace old new s'
      else String x (replace old new s')
  end.

(** [sep.join(l)]. *)
Fixpoint join (sep : string) (l : list string) : string :=
  match l with
  | [] => EmptyString
  | x :: l' =>
      match l' with
      | [] => x
      | _ :: _ => x +:+ sep +:+ join sep l'
      end
  end.

(** [s.endswith(c)] where [c] is a one-character string. *)
Fixpoint endswith (c : ascii) (s : string) : bool :=
  match s with
  | EmptyString => false
  | String x EmptyString => Ascii.eqb x c
  | String _ s' => endswith c s'
  end.

(** [s.startswith(c)] where [c] is a one-character string. *)
Definition startswith (c : ascii) (s : string) : bool :=
  match s with
  | EmptyString => false
  | String x _ => Ascii.eqb x c
  end.

(** [os.path.join(a, b)] of posixpath, for two components. *)
Definition os_path_join (a b : string) : string :=
  if startswith SLASH b then b
  else if (match a with EmptyString => true | _ => false end) || endswith SLASH a
       then a +:+ b
       else a +:+ char SLASH +:+ b.

(** [str(n)] for a length. *)
Definition str_of_nat (n : nat) : string :=
  NilZero.string_of_uint (Nat.to_uint n).

End Py.

(** ** Cells and grids *)

(** A cell value as the JSON decoder hands it over. *)
Inductive value : Type :=
| VStr (s : string)
| VInt (z : Z)
| VBool (b : bool)
| VNone.

Abbreviation grid := (list (list value)).

(** [str(cell)]. *)
Definition str (cell : value) : string :=
  match cell with
  | VStr s => s
  | VInt z => NilZero.string_of_int (Z.to_int z)
  | VBool true => "True"
  | VBool false => "False"
  | VNone => "None"
  end.

(** ** The collaborators *)

(** The response of [values().get(...).execute()]: a dict of which the
    script reads the key ['values'] only; [None] when the key is absent. *)
Record ValueRange : Type := { values_entry : option grid }.

(** [result.get('values', [])]. *)
Definition get_values (result : ValueRange) : grid :=
  default [] (values_entry result).

(** The client bound to one spreadsheet: the titles of its sheets in the
    order of the metadata, and the values of an A1 range. *)
Record Service : Type := {
  sheet_titles : list string;
  values_get : string -> ValueRange
}.

(** The console and the file system. *)
Record World : Type := {
  stdout : list string;
  dirs : gset string;
  files : gmap string string
}.

Definition print (line : string) (w : World) : World :=
  {| stdout := stdout w ++ [line]; dirs := dirs w; files := files w |}.

(** [os.makedirs]: for a path and the directories and files there are,
    the directories after the call, or [None] when it raises (an empty
    path, a regular file in the way, no permission).  It makes parent
    directories as the library decides; it writes no file and prints
    nothing, which the type says. *)
Record Os : Type := {
  os_makedirs : string -> gset string -> gmap string string -> option (gset string)
}.

(** [os.makedirs(d, exist_ok=True)]. *)
Definition makedirs (os : Os) (d : string) (w : World) : option World :=
  match os_makedirs os d (dirs w) (files w) with
  | None => None
  | Some made => Some {| stdout := stdout w; dirs := made; files := files w |}
  end.

(** Several lines printed in order. *)
Definition print_all (lines : list string) (w : World) : World :=
  {| stdout := stdout w ++ lines; dirs := dirs w; files := files w |}.

(** [open(path, 'w', ...)] followed by [f.write(data)]: the file is created
    or truncated and holds [data]. *)
Definition write_file (path data : string) (w : World) : World :=
  {| stdout := stdout w; dirs := dirs w; files := <[ path := data ]> (files w) |}.

(** ** export_sheet_to_csv *)

(** The test of line 55. *)
Definition needs_quoting (cell : value) : bool :=
  Py.contains Py.COMMA (str cell)
  || Py.contains Py.QUOTE (str cell)
  || Py.contains Py.LF (str cell).

(** The field appended to [csv_row] for one cell (lines 55 to 58). *)
Definition csv_field (cell : value) : string :=
  if needs_quoting cell
  then Py.char Py.QUOTE
       +:+ Py.replace Py.QUOTE (Py.char Py.QUOTE +:+ Py.char Py.QUOTE) (str cell)
       +:+ Py.char Py.QUOTE
  else str cell.

(** The inner loop: [csv_row] after the cells of [row], starting from
    the list [acc]. *)
Definition csv_row_from (acc : list string) (row : list value) : list string :=
  foldl (fun csv_row cell => csv_row ++ [csv_field cell]) acc row.

Definition csv_row (row : list value) : list string := csv_row_from [] row.

(** The outer loop: [csv_content] after the rows of [values]. *)
Definition csv_content_from (acc : list string) (values : grid) : list string :=
  foldl (fun csv_content row =>
           csv_content ++ [Py.join (Py.char Py.COMMA) (csv_row row)])
        acc values.

Definition csv_content (values : grid) : list string :=
  csv_content_from [] values.

(** The function itself.  [None] is the bare [return] of line 47. *)
Definition export_sheet_to_csv (service : Service) (sheet_name range_name : string)
    (w : World) : option string * World :=
  let result := values_get service (sheet_name +:+ "!" +:+ range_name) in
  let values := get_values result in
  match values with
  | [] => (None, print ("No data found in sheet: " +:+ sheet_name) w)
  | _ :: _ => (Some (Py.join (Py.char Py.LF) (csv_content values)), w)
  end.

(** ** download_all_sheets *)

(** The truth value of [csv_data] in [if csv_data:]. *)
Definition truthy (csv_data : option string) : bool :=
  match csv_data with
  | None => false
  | Some EmptyString => false
  | Some (String _ _) => true
  end.

(** Line 84. *)
Definition filename_of (sheet_name : string) : string :=
  Py.replace Py.SLASH (Py.char Py.UNDERSCORE) sheet_name +:+ ".csv".

Definition filepath_of (output_dir sheet_name : string) : string :=
  Py.os_path_join output_dir (filename_of sheet_name).

(** The body of the loop over the sheet names. *)
Definition export_tab (service : Service) (output_dir sheet_name : string)
    (w : World) : World :=
  let w1 := print ("Exporting sheet: " +:+ sheet_name) w in
  let '(csv_data, w2) := export_sheet_to_csv service sheet_name "A:Z" w1 in
  if truthy csv_data then
    let filepath := filepath_of output_dir sheet_name in
    let w3 := write_file filepath (default EmptyString csv_data) w2 in
    print ("Saved: " +:+ filepath) w3
  else w2.

Definition export_tabs (service : Service) (output_dir : string)
    (sheet_names : list string) (w : World) : World :=
  foldl (fun w sheet_name => export_tab service output_dir sheet_name w)
        w sheet_names.

(** The function from the point where the client is built.  The boolean
    tells whether it returned: when [os.makedirs] raises, the function
    stops after its first line of output. *)
Definition download_all_sheets (os : Os) (service : Service) (output_dir : string)
    (w : World) : bool * World :=
  let sheet_names := sheet_titles service in
  let w1 := print ("Found " +:+ Py.str_of_nat (length sheet_names)
                   +:+ " sheets: " +:+ Py.join ", " sheet_names) w in
  match makedirs os output_dir w1 with
  | None => (false, w1)
  | Some w2 =>
      let w3 := export_tabs service output_dir sheet_names w2 in
      (true,
       print (Py.char Py.LF +:+ "All sheets exported to directory: " +:+ output_dir)
             w3)
  end.

(** ** What the claims are stated with *)

(** The character [c] occurs in [s]. *)
Definition occurs (c : ascii) (s : string) : Prop :=
  exists a b, s = a +:+ String c b.

(** The display string holds a comma, a double quote or a line feed. *)
Definition special (s : string) : Prop :=
  occurs Py.COMMA s \/ occurs Py.QUOTE s \/ occurs Py.LF s.

(** The field starts with a double quote and ends with another one. *)
Definition wrapped (s : string) : Prop :=
  exists body, s = Py.char Py.QUOTE +:+ body +:+ Py.char Py.QUOTE.

(** The escape in the spec's words: every double quote becomes two, every
    other character stays as it is. *)
Definition double_quotes (s : string) : string :=
  String.string_of_list_ascii
    (flat_map (fun c => if decide (c = Py.QUOTE) then [Py.QUOTE; Py.QUOTE] else [c])
              (String.list_ascii_of_string s)).

(** The text [joined] is the strings of [l] with one [sep] between each two
    neighbours and nothing after the last one. *)
Inductive Joined (sep : string) : list string -> string -> Prop :=
| Joined_nil : Joined sep [] EmptyString
| Joined_one x : Joined sep [x] x
| Joined_cons x y l rest :
    Joined sep (y :: l) rest -> Joined sep (x :: y :: l) (x +:+ sep +:+ rest).

(** The substitution of line 84 on one character. *)
Definition sanitize_char (c : ascii) : ascii :=
  if decide (c = Py.SLASH) then Py.UNDERSCORE else c.

(** A world in which nothing was printed or written. *)
Definition empty_world : World :=
  {| stdout := []; dirs := ∅; files := ∅ |}.

(** A client that answers every range with the same entry. *)
Definition constant_service (titles : list string) (entry : option grid) : Service :=
  {| sheet_titles := titles; values_get := fun _ => {| values_entry := entry |} |}.

(** ** A reader of CSV text

    The reader the round-trip property is stated with, written after the
    description "split rows on newlines outside quotes, split fields on
    commas outside quotes, strip one layer of quotes and undouble embedded
    double-quotes".  It is not part of the script. *)

Module Reader.

(** The state after [c]: a double quote opens or closes a quoted part. *)
Definition toggle (c : ascii) (inq : bool) : bool :=
  if Ascii.eqb c Py.QUOTE then negb inq else inq.

(** The pieces of [s] between the occurrences of [sep] that lie outside
    quotes; [inq] tells whether [s] starts inside a quoted part. *)
Fixpoint split_outside (sep : ascii) (inq : bool) (s : string) : list string :=
  match s with
  | EmptyString => [EmptyString]
  | String c s' =>
      if Ascii.eqb c sep && negb inq
      then EmptyString :: split_outside sep false s'
      else match split_outside sep (toggle c inq) s' with
           | piece :: pieces => String c piece :: pieces
           | [] => [Py.char c]
           end
  end.

(** Every pair of double quotes becomes one. *)
Fixpoint undouble (s : string) : string :=
  match s with
  | EmptyString => EmptyString
  | String c s' =>
      match s' with
      | EmptyString => String c EmptyString
      | String c' s'' =>
          if Ascii.eqb c Py.QUOTE && Ascii.eqb c' Py.QUOTE
          then String Py.QUOTE (undouble s'')
          else String c (undouble s')
      end
  end.

(** [s] without its last character. *)
Fixpoint drop_last (s : string) : string :=
  match s with
  | EmptyString => EmptyString
  | String c s' =>
      match s' with
      | EmptyString => EmptyString
      | String _ _ => String c (drop_last s')
      end
  end.

(** One layer of quotes is stripped from a field that has one, and the
    quotes inside are undoubled; any other field is taken as it is. *)
Definition unquote (field : string) : string :=
  match field with
  | EmptyString => EmptyString
  | String c body =>
      if Ascii.eqb c Py.QUOTE && Py.endswith Py.QUOTE body
      then undouble (drop_last body)
      else field
  end.

Definition parse_row (line : string) : list string :=
  map unquote (split_outside Py.COMMA false line).

Definition parse_csv (text : string) : list (list string) :=
  map parse_row (split_outside Py.LF false text).

(** [Some b] when no [sep] lies outside quotes in [s], where [b] is the
    state at the end of [s]; used to reason about [split_outside]. *)
Fixpoint scan (sep : ascii) (inq : bool) (s : string) : option bool :=
  match s with
  | EmptyString => Some inq
  | String c s' =>
      if Ascii.eqb c sep && negb inq then None
      else scan sep (toggle c inq) s'
  end.

End Reader.

(** What the reader gives for the text of a row: a row without cells reads
    as a row with one empty field. *)
Definition displayed_row (row : list value) : list string :=
  match row with
  | [] => [EmptyString]
  | _ :: _ => map str row
  end.

(** * Properties *)

(** ** get_credentials *)

(** What the script reads of a credentials object of the auth library:
    the properties [valid] and [expired] with the values they have when the
    script reads them, and the attribute [refresh_token]. *)
Record Credentials : Type := {
  token : option string;
  valid : bool;
  expired : bool;
  refresh_token : option string
}.

(** The collaborators of [get_credentials].  A call that raises gives
    [None]. *)
Record Auth : Type := {
  (** [pickle.load] on the bytes of the token file. *)
  pickle_load : string -> option Credentials;
  (** [pickle.dump]: the bytes written for a credentials object. *)
  pickle_dump : Credentials -> string;
  (** [creds.refresh(Request())]: the object after the call. *)
  refresh : Credentials -> option Credentials;
  (** [InstalledAppFlow.from_client_secrets_file(...).run_local_server(port=0)]:
      the lines the login prints, and the credentials or [None] when it
      raises. *)
  run_local_server : list string * option Credentials
}.

Definition TOKEN_PICKLE : string := "token.pickle".

(** Lines 18 to 21: [Some None] when there is no token file, [None] when
    loading it raises. *)
Definition load_token (auth : Auth) (w : World) : option (option Credentials) :=
  match files w !! TOKEN_PICKLE with
  | None => Some None
  | Some data =>
      match pickle_load auth data with
      | Some creds => Some (Some creds)
      | None => None
      end
  end.

(** The test [not creds or not creds.valid] of line 23, negated. *)
Definition usable (creds : option Credentials) : bool :=
  match creds with
  | None => false
  | Some c => valid c
  end.

(** Lines 24 to 29: the lines printed and the credentials after a refresh
    or a new login. *)
Definition renew (auth : Auth) (creds : option Credentials)
    : list string * option Credentials :=
  match creds with
  | Some c =>
      if expired c && truthy (refresh_token c)
      then ([], refresh auth c)
      else run_local_server auth
  | None => run_local_server auth
  end.

(** The function: the credentials, or [None] when a call raised, and the
    world after it. *)
Definition get_credentials (auth : Auth) (w : World) : option Credentials * World :=
  match load_token auth w with
  | None => (None, w)
  | Some creds =>
      if usable creds then (creds, w)
      else
        let w1 := print_all (renew auth creds).1 w in
        match (renew auth creds).2 with
        | None => (None, w1)
        | Some fresh =>
            (Some fresh, write_file TOKEN_PICKLE (pickle_dump auth fresh) w1)
        end
  end.

(** ** The whole run *)

(** [download_all_sheets] from its first line: [build] is the client the
    discovery call gives for the credentials.  The boolean tells whether the
    function returned. *)
Definition download_all_sheets_auth (os : Os) (auth : Auth)
    (build : Credentials -> Service) (output_dir : string) (w : World)
    : bool * World :=
  match get_credentials auth w with
  | (None, w1) => (false, w1)
  | (Some creds, w1) => download_all_sheets os (build creds) output_dir w1
  end.

Definition PLACEHOLDER : string := "YOUR_SPREADSHEET_ID_HERE".

(** The block under [if __name__ == '__main__'], for a value of the
    constant [SPREADSHEET_ID]. *)
Definition main (os : Os) (auth : Auth)
    (build : string -> Credentials -> Service)
    (SPREADSHEET_ID : string) (w : World) : World :=
  if String.eqb SPREADSHEET_ID PLACEHOLDER then
    print "3. Replace YOUR_SPREADSHEET_ID_HERE with the actual ID"
      (print "2. Copy the ID from the URL (between /d/ and /edit)"
         (print "1. Open your Google Sheet"
            (print "Please set your SPREADSHEET_ID in the script!" w)))
  else (download_all_sheets_auth os auth (build SPREADSHEET_ID) "sheets_export" w).2.

(** ** What the further properties are stated with *)

(** [s] ends with [suffix]. *)
Definition has_suffix (suffix s : string) : Prop :=
  exists before, s = before +:+ suffix.

(** The text of a tab: what [export_sheet_to_csv] returns for it. *)
Definition tab_text (service : Service) (sheet_name : string) : option string :=
  (export_sheet_to_csv service sheet_name "A:Z" empty_world).1.



(** An [os.makedirs] that makes the directory asked for and nothing else,
    and one that always raises. *)
Definition plain_os : Os :=
  {| os_makedirs := fun d made _ => Some ({[ d ]} ∪ made) |}.


(** Credentials that are valid. *)
Definition valid_credentials : Credentials :=
  {| token := Some "t"; valid := true; expired := false;
     refresh_token := Some "r" |}.


(** ** Strings *)

#[local] Arguments String.append !s1 s2 : simpl nomatch.

Section StringFacts.

Lemma append_nil_r (s : string) : s +:+ EmptyString = s.
Proof. induction s as [|c s IH]; [reflexivity | simpl; now f_equal]. Qed.

Lemma append_assoc (a b c : string) : (a +:+ b) +:+ c = a +:+ (b +:+ c).
Proof. induction a as [|x a IH]; [reflexivity | simpl; now f_equal]. Qed.

Lemma contains_occurs (c : ascii) (s : string) :
  Py.contains c s = true <-> occurs c s.
Proof.
  induction s as [|x s IH]; simpl.
  - split; [discriminate|]. intros (a & b & Hab). destruct a; discriminate.
  - destruct (Ascii.eqb_spec c x) as [->|Hne].
    + split; [|reflexivity]. intros _. now exists EmptyString, s.
    + rewrite IH. split.
      * intros (a & b & ->). now exists (String x a), b.
      * intros (a & b & Hab). destruct a as [|y a]; simpl in Hab.
        -- injection Hab as Hx _. congruence.
        -- injection Hab as _ Hs. now exists a, b.
Qed.

Lemma contains_append (c : ascii) (a b : string) :
  Py.contains c (a +:+ b) = Py.contains c a || Py.contains c b.
Proof.
  induction a as [|x a IH]; simpl; [reflexivity|].
  destruct (Ascii.eqb c x); [reflexivity | exact IH].
Qed.

End StringFacts.

(** ** Fields *)

Lemma needs_quoting_special (cell : value) :
  needs_quoting cell = true <-> special (str cell).
Proof.
  unfold needs_quoting, special.
  rewrite !orb_true_iff, !contains_occurs. tauto.
Qed.

Lemma needs_quoting_not_special (cell : value) :
  needs_quoting cell = false <-> ~ special (str cell).
Proof.
  rewrite <- needs_quoting_special. destruct (needs_quoting cell); split; congruence.
Qed.

Lemma needs_quoting_false_contains (cell : value) :
  needs_quoting cell = false ->
  Py.contains Py.COMMA (str cell) = false
  /\ Py.contains Py.QUOTE (str cell) = false
  /\ Py.contains Py.LF (str cell) = false.
Proof.
  unfold needs_quoting. rewrite !orb_false_iff. tauto.
Qed.

Lemma wrapped_contains_quote (s : string) :
  wrapped s -> Py.contains Py.QUOTE s = true.
Proof.
  intros (body & ->). reflexivity.
Qed.

Lemma replace_cons (old : ascii) (new : string) (x : ascii) (s : string) :
  Py.replace old new (String x s)
  = if Ascii.eqb x old then new +:+ Py.replace old new s
    else String x (Py.replace old new s).
Proof. reflexivity. Qed.

Lemma double_quotes_cons (x : ascii) (s : string) :
  double_quotes (String x s)
  = if decide (x = Py.QUOTE)
    then String Py.QUOTE (String Py.QUOTE (double_quotes s))
    else String x (double_quotes s).
Proof. unfold double_quotes. simpl. now destruct (decide (x = Py.QUOTE)). Qed.

(** The replacement of line 56 is the escape the spec describes. *)
Lemma replace_double_quotes (s : string) :
  Py.replace Py.QUOTE (Py.char Py.QUOTE +:+ Py.char Py.QUOTE) s = double_quotes s.
Proof.
  induction s as [|x s IH]; [reflexivity|].
  rewrite replace_cons, double_quotes_cons, IH.
  destruct (Ascii.eqb_spec x Py.QUOTE) as [->|Hne].
  - now rewrite decide_True.
  - now rewrite decide_False.
Qed.

(** ** Display strings *)

Lemma string_of_uint_not_empty (d : Decimal.uint) :
  NilZero.string_of_uint d <> EmptyString.
Proof. destruct d; discriminate. Qed.

Lemma str_empty_iff (cell : value) :
  str cell = EmptyString <-> cell = VStr EmptyString.
Proof.
  split; [|intros ->; reflexivity].
  destruct cell as [s|z|[|]|]; simpl; try discriminate.
  - now intros ->.
  - intros Hz. exfalso. unfold NilZero.string_of_int in Hz.
    destruct (Z.to_int z) as [d|d]; [|discriminate].
    now apply string_of_uint_not_empty in Hz.
Qed.

Lemma csv_field_display (cell : value) :
  csv_field cell = csv_field (VStr (str cell)).
Proof. reflexivity. Qed.

Lemma csv_field_empty_iff (cell : value) :
  csv_field cell = EmptyString <-> str cell = EmptyString.
Proof.
  unfold csv_field. destruct (needs_quoting cell) eqn:Hq.
  - split; [discriminate|]. intros Hs. unfold needs_quoting in Hq.
    rewrite Hs in Hq. discriminate.
  - reflexivity.
Qed.

(** ** File names *)

Lemma replace_char_get (old new : ascii) (s : string) (i : nat) :
  String.get i (Py.replace old (Py.char new) s)
  = (fun c => if decide (c = old) then new else c) <$> String.get i s.
Proof.
  revert i. induction s as [|x s IH]; intros i; [reflexivity|].
  rewrite replace_cons.
  destruct (Ascii.eqb_spec x old) as [->|Hne]; destruct i as [|i]; simpl.
  - now rewrite decide_True.
  - apply IH.
  - now rewrite decide_False.
  - apply IH.
Qed.

Lemma replace_char_length (old new : ascii) (s : string) :
  String.length (Py.replace old (Py.char new) s) = String.length s.
Proof.
  induction s as [|x s IH]; [reflexivity|].
  rewrite replace_cons. destruct (Ascii.eqb x old); simpl; now rewrite IH.
Qed.

Lemma replace_char_contains (old new : ascii) (s : string) :
  new <> old -> Py.contains old (Py.replace old (Py.char new) s) = false.
Proof.
  intros Hne. induction s as [|x s IH]; [reflexivity|].
  rewrite replace_cons. destruct (Ascii.eqb_spec x old) as [->|Hx]; simpl.
  - destruct (Ascii.eqb_spec old new); [congruence | exact IH].
  - destruct (Ascii.eqb_spec old x); [congruence | exact IH].
Qed.

(** ** Rows and grids *)

Section Loops.

Lemma csv_row_from_map (acc : list string) (row : list value) :
  csv_row_from acc row = acc ++ map csv_field row.
Proof.
  unfold csv_row_from. revert acc.
  induction row as [|cell row IH]; intros acc; simpl.
  - now rewrite app_nil_r.
  - rewrite IH, <- app_assoc. reflexivity.
Qed.

Lemma csv_row_map (row : list value) : csv_row row = map csv_field row.
Proof. unfold csv_row. now rewrite csv_row_from_map. Qed.

Lemma csv_content_from_map (acc : list string) (values : grid) :
  csv_content_from acc values
  = acc ++ map (fun row => Py.join (Py.char Py.COMMA) (csv_row row)) values.
Proof.
  unfold csv_content_from. revert acc.
  induction values as [|row values IH]; intros acc; simpl.
  - now rewrite app_nil_r.
  - rewrite IH, <- app_assoc. reflexivity.
Qed.

Lemma csv_content_map (values : grid) :
  csv_content values
  = map (fun row => Py.join (Py.char Py.COMMA) (csv_row row)) values.
Proof. unfold csv_content. now rewrite csv_content_from_map. Qed.

Lemma csv_row_length (row : list value) : length (csv_row row) = length row.
Proof. rewrite csv_row_map. apply length_map. Qed.

Lemma csv_row_lookup (row : list value) (j : nat) :
  csv_row row !! j = csv_field <$> row !! j.
Proof. rewrite csv_row_map. apply list_lookup_fmap. Qed.

Lemma join_Joined (sep : string) (l : list string) :
  Joined sep l (Py.join sep l).
Proof.
  induction l as [|x [|y l] IH].
  - constructor.
  - constructor.
  - change (Py.join sep (x :: y :: l)) with (x +:+ sep +:+ Py.join sep (y :: l)).
    now constructor.
Qed.

Lemma Joined_unique (sep : string) (l : list string) (a b : string) :
  Joined sep l a -> Joined sep l b -> a = b.
Proof.
  intros Ha. revert b. induction Ha; intros b Hb; inversion Hb; subst; try reflexivity.
  f_equal. f_equal. now apply IHHa.
Qed.

Lemma export_some (service : Service) (sheet_name range_name : string) (w : World) :
  get_values (values_get service (sheet_name +:+ "!" +:+ range_name)) <> [] ->
  export_sheet_to_csv service sheet_name range_name w
  = (Some (Py.join (Py.char Py.LF)
             (csv_content
                (get_values (values_get service (sheet_name +:+ "!" +:+ range_name))))),
     w).
Proof.
  intros Hne. unfold export_sheet_to_csv.
  destruct (get_values _) as [|row values]; [contradiction | reflexivity].
Qed.

Lemma export_none (service : Service) (sheet_name range_name : string) (w : World) :
  get_values (values_get service (sheet_name +:+ "!" +:+ range_name)) = [] ->
  export_sheet_to_csv service sheet_name range_name w
  = (None, print ("No data found in sheet: " +:+ sheet_name) w).
Proof. intros Hnil. unfold export_sheet_to_csv. now rewrite Hnil. Qed.

End Loops.

(** ** The driver *)

Section Driver.

Variable service : Service.
Variable output_dir : string.

Lemma get_values_nil (result : ValueRange) :
  get_values result = []
  <-> values_entry result = None \/ values_entry result = Some [].
Proof.
  unfold get_values. destruct (values_entry result) as [values|]; simpl.
  - split; [intros ->; now right | intros [H|H]; congruence].
  - split; [now left | reflexivity].
Qed.

Lemma export_data_world (sheet_name range_name : string) (w w' : World) :
  (export_sheet_to_csv service sheet_name range_name w).1
  = (export_sheet_to_csv service sheet_name range_name w').1.
Proof. unfold export_sheet_to_csv. now destruct (get_values _). Qed.

Lemma export_files (sheet_name range_name : string) (w : World) :
  files (export_sheet_to_csv service sheet_name range_name w).2 = files w.
Proof. unfold export_sheet_to_csv. now destruct (get_values _). Qed.

Lemma truthy_true (csv_data : option string) :
  truthy csv_data = true
  <-> exists text, csv_data = Some text /\ text <> EmptyString.
Proof.
  destruct csv_data as [[|c text]|]; simpl.
  - split; [discriminate|]. intros (text & [= <-] & Hne). contradiction.
  - split; [|reflexivity]. intros _. now eexists.
  - split; [discriminate|]. intros (text & Heq & _). discriminate.
Qed.

Lemma truthy_false (csv_data : option string) :
  truthy csv_data = false
  <-> csv_data = None \/ csv_data = Some EmptyString.
Proof.
  destruct csv_data as [[|c text]|]; simpl.
  - split; [now right | reflexivity].
  - split; [discriminate | intros [H|H]; discriminate].
  - split; [now left | reflexivity].
Qed.

(** The files after the body of the loop, by the truth value of the text. *)
Lemma export_tab_files (sheet_name : string) (w : World) :
  files (export_tab service output_dir sheet_name w)
  = match (export_sheet_to_csv service sheet_name "A:Z" w).1 with
    | Some (String c text) =>
        <[ filepath_of output_dir sheet_name := String c text ]> (files w)
    | _ => files w
    end.
Proof.
  unfold export_tab.
  rewrite (export_data_world sheet_name "A:Z" w
             (print ("Exporting sheet: " +:+ sheet_name) w)).
  pose proof (export_files sheet_name "A:Z"
                (print ("Exporting sheet: " +:+ sheet_name) w)) as Hf.
  destruct (export_sheet_to_csv service sheet_name "A:Z" _) as [[[|c text]|] w2];
    simpl in *; exact Hf || now rewrite Hf.
Qed.

Lemma export_tabs_app (before after : list string) (w : World) :
  export_tabs service output_dir (before ++ after) w
  = export_tabs service output_dir after (export_tabs service output_dir before w).
Proof. unfold export_tabs. apply foldl_app. Qed.

Lemma export_tabs_files_world (names : list string) (w w' : World) :
  files w = files w' ->
  files (export_tabs service output_dir names w)
  = files (export_tabs service output_dir names w').
Proof.
  unfold export_tabs. revert w w'.
  induction names as [|sheet_name names IH]; intros w w' Hw; [exact Hw|].
  cbn [foldl]. apply IH. rewrite !export_tab_files.
  rewrite (export_data_world sheet_name "A:Z" w w'), Hw. reflexivity.
Qed.

End Driver.

(** ** Reading the document back *)

Section RoundTrip.

Import Reader.

#[local] Arguments Ascii.eqb : simpl never.

Lemma toggle_other (c : ascii) (inq : bool) :
  c <> Py.QUOTE -> toggle c inq = inq.
Proof.
  intros Hne. unfold toggle. now destruct (Ascii.eqb_spec c Py.QUOTE).
Qed.

Lemma scan_append (sep : ascii) (inq : bool) (a b : string) :
  scan sep inq (a +:+ b) = scan sep inq a ≫= fun state => scan sep state b.
Proof.
  revert inq. induction a as [|c a IH]; intros inq; simpl; [reflexivity|].
  destruct (Ascii.eqb c sep && negb inq); [reflexivity | apply IH].
Qed.

(** A string without the separator and without quotes keeps the state. *)
Lemma scan_plain (sep : ascii) (inq : bool) (s : string) :
  Py.contains sep s = false -> Py.contains Py.QUOTE s = false ->
  scan sep inq s = Some inq.
Proof.
  induction s as [|c s IH]; simpl; [reflexivity|].
  destruct (Ascii.eqb_spec sep c) as [->|Hsep]; [discriminate|].
  destruct (Ascii.eqb_spec Py.QUOTE c) as [<-|Hq]; [discriminate|].
  intros Hs Hquote.
  destruct (Ascii.eqb_spec c sep) as [Heq|_]; [congruence|]. simpl.
  rewrite toggle_other by congruence. now apply IH.
Qed.

(** Inside a quoted part the escaped text leaves no separator outside
    quotes and ends inside the quoted part. *)
Lemma scan_escaped (sep : ascii) (s : string) :
  sep <> Py.QUOTE ->
  scan sep true (Py.replace Py.QUOTE (Py.char Py.QUOTE +:+ Py.char Py.QUOTE) s)
  = Some true.
Proof.
  intros Hsep. induction s as [|c s IH]; [reflexivity|].
  rewrite replace_cons.
  set (escaped := Py.replace Py.QUOTE _ s) in *.
  destruct (Ascii.eqb_spec c Py.QUOTE) as [->|Hc].
  - change (scan sep true (String Py.QUOTE (String Py.QUOTE escaped)) = Some true).
    cbn [scan]. rewrite andb_false_r. change (toggle Py.QUOTE true) with false.
    destruct (Ascii.eqb_spec Py.QUOTE sep) as [Heq|_]; [congruence|].
    cbn [andb]. exact IH.
  - cbn [scan]. rewrite andb_false_r, toggle_other by exact Hc. exact IH.
Qed.

Lemma scan_field (sep : ascii) (cell : value) :
  sep = Py.COMMA \/ sep = Py.LF ->
  scan sep false (csv_field cell) = Some false.
Proof.
  intros Hsep.
  assert (Hq : sep <> Py.QUOTE) by (destruct Hsep as [-> | ->]; discriminate).
  unfold csv_field. destruct (needs_quoting cell) eqn:Hn.
  - change (Py.char Py.QUOTE +:+ ?body +:+ Py.char Py.QUOTE)
      with (String Py.QUOTE (body +:+ Py.char Py.QUOTE)).
    cbn [scan]. destruct (Ascii.eqb_spec Py.QUOTE sep) as [Heq|_]; [congruence|].
    cbn [andb]. change (toggle Py.QUOTE false) with true.
    rewrite scan_append, scan_escaped by exact Hq. simpl.
    now rewrite andb_false_r.
  - apply needs_quoting_false_contains in Hn as (Hcomma & Hquote & Hlf).
    apply scan_plain; [|exact Hquote]. now destruct Hsep as [-> | ->].
Qed.

Lemma scan_line (row : list value) :
  scan Py.LF false (Py.join (Py.char Py.COMMA) (map csv_field row)) = Some false.
Proof.
  induction row as [|cell [|cell' row] IH].
  - reflexivity.
  - apply scan_field. now right.
  - change (map csv_field (cell :: cell' :: row))
      with (csv_field cell :: map csv_field (cell' :: row)).
    change (Py.join ?sep (?x :: map csv_field (cell' :: row)))
      with (x +:+ sep +:+ Py.join sep (map csv_field (cell' :: row))).
    rewrite !scan_append, scan_field by now right. simpl. exact IH.
Qed.

Lemma split_outside_closed (sep : ascii) (inq state : bool) (s : string) :
  scan sep inq s = Some state -> split_outside sep inq s = [s].
Proof.
  revert inq. induction s as [|c s IH]; intros inq; simpl; [reflexivity|].
  destruct (Ascii.eqb c sep && negb inq); [discriminate|].
  intros Hs. now rewrite (IH _ Hs).
Qed.

Lemma split_outside_sep (sep : ascii) (inq : bool) (s rest : string) :
  scan sep inq s = Some false ->
  split_outside sep inq (s +:+ String sep rest)
  = s :: split_outside sep false rest.
Proof.
  revert inq. induction s as [|c s IH]; intros inq; simpl.
  - intros [= ->]. now rewrite Ascii.eqb_refl.
  - destruct (Ascii.eqb c sep && negb inq); [discriminate|].
    intros Hs. now rewrite (IH _ Hs).
Qed.

(** Splitting a joined text gives the joined pieces back, when no piece
    has a separator outside quotes or an open quote. *)
Lemma split_outside_join (sep : ascii) (pieces : list string) :
  pieces <> [] ->
  Forall (fun piece => scan sep false piece = Some false) pieces ->
  split_outside sep false (Py.join (Py.char sep) pieces) = pieces.
Proof.
  intros Hne Hall. induction Hall as [|piece [|piece' pieces] Hp Hall IH].
  - contradiction.
  - simpl. now apply split_outside_closed with (state := false).
  - change (Py.join (Py.char sep) (piece :: piece' :: pieces))
      with (piece +:+ String sep (Py.join (Py.char sep) (piece' :: pieces))).
    rewrite split_outside_sep by exact Hp. now rewrite IH.
Qed.

Lemma undouble_other (c : ascii) (s : string) :
  c <> Py.QUOTE -> undouble (String c s) = String c (undouble s).
Proof.
  intros Hc. destruct s as [|c' s]; [reflexivity|]. cbn [undouble].
  destruct (Ascii.eqb_spec c Py.QUOTE) as [Heq|_]; [congruence | reflexivity].
Qed.

Lemma undouble_replace (s : string) :
  undouble (Py.replace Py.QUOTE (Py.char Py.QUOTE +:+ Py.char Py.QUOTE) s) = s.
Proof.
  induction s as [|c s IH]; [reflexivity|].
  rewrite replace_cons.
  set (escaped := Py.replace Py.QUOTE _ s) in *.
  destruct (Ascii.eqb_spec c Py.QUOTE) as [->|Hc].
  - change (undouble (String Py.QUOTE (String Py.QUOTE escaped))
            = String Py.QUOTE s).
    cbn [undouble]. change (Ascii.eqb Py.QUOTE Py.QUOTE) with true.
    cbn [andb]. now rewrite IH.
  - rewrite undouble_other by exact Hc. now rewrite IH.
Qed.

Lemma endswith_append_char (c : ascii) (s : string) :
  Py.endswith c (s +:+ Py.char c) = true.
Proof.
  induction s as [|x s IH]; simpl.
  - apply Ascii.eqb_refl.
  - destruct (s +:+ Py.char c) eqn:Hs; [destruct s; discriminate | exact IH].
Qed.

Lemma drop_last_append_char (c : ascii) (s : string) :
  drop_last (s +:+ Py.char c) = s.
Proof.
  induction s as [|x s IH]; simpl; [reflexivity|].
  destruct (s +:+ Py.char c) eqn:Hs; [destruct s; discriminate|].
  now rewrite IH.
Qed.

(** The reader gives the display string of a cell back from its field. *)
Lemma unquote_csv_field (cell : value) :
  unquote (csv_field cell) = str cell.
Proof.
  unfold csv_field. destruct (needs_quoting cell) eqn:Hn.
  - change (Py.char Py.QUOTE +:+ ?body +:+ Py.char Py.QUOTE)
      with (String Py.QUOTE (body +:+ Py.char Py.QUOTE)).
    cbn [unquote]. change (Ascii.eqb Py.QUOTE Py.QUOTE) with true.
    rewrite endswith_append_char, drop_last_append_char. cbn [andb].
    apply undouble_replace.
  - apply needs_quoting_false_contains in Hn as (_ & Hquote & _).
    destruct (str cell) as [|c s]; [reflexivity|]. simpl in *.
    destruct (Ascii.eqb_spec Py.QUOTE c) as [<-|Hq]; [discriminate|].
    destruct (Ascii.eqb_spec c Py.QUOTE) as [Heq|_]; [congruence | reflexivity].
Qed.

Lemma parse_row_csv_row (row : list value) :
  parse_row (Py.join (Py.char Py.COMMA) (csv_row row)) = displayed_row row.
Proof.
  unfold parse_row. rewrite csv_row_map. destruct row as [|cell row]; [reflexivity|].
  rewrite split_outside_join.
  - rewrite map_map. apply map_ext. intros c. apply unquote_csv_field.
  - discriminate.
  - apply List.Forall_forall. intros field Hin. apply in_map_iff in Hin as (c & <- & _).
    apply scan_field. now left.
Qed.

(** The reader gives the rows of display strings back from the document
    of a grid with at least one row. *)
Lemma parse_csv_document (values : grid) :
  values <> [] ->
  parse_csv (Py.join (Py.char Py.LF) (csv_content values))
  = map displayed_row values.
Proof.
  intros Hne. unfold parse_csv. rewrite csv_content_map, split_outside_join.
  - rewrite map_map. apply map_ext. intros row. apply parse_row_csv_row.
  - destruct values; [contradiction | discriminate].
  - apply List.Forall_forall. intros line Hin. apply in_map_iff in Hin as (row & <- & _).
    rewrite csv_row_map. apply scan_line.
Qed.

Lemma displayed_rows_not_empty (values : grid) :
  Forall (fun row => row <> []) values ->
  map displayed_row values = map (map str) values.
Proof.
  intros Hall. apply map_ext_in. intros row Hin.
  rewrite List.Forall_forall in Hall. specialize (Hall row Hin).
  now destruct row.
Qed.

End RoundTrip.

(** ** The ends of the row texts and of the document *)

Section Endings.

Lemma endswith_cons (c x : ascii) (s : string) :
  Py.endswith c (String x s)
  = match s with
    | EmptyString => Ascii.eqb x c
    | String _ _ => Py.endswith c s
    end.
Proof. reflexivity. Qed.

Lemma endswith_append (c : ascii) (a b : string) :
  Py.endswith c (a +:+ b)
  = match b with
    | EmptyString => Py.endswith c a
    | String _ _ => Py.endswith c b
    end.
Proof.
  induction a as [|x a IH].
  - now destruct b.
  - change (String x a +:+ b) with (String x (a +:+ b)).
    rewrite !endswith_cons, IH.
    destruct a as [|y a]; [now destruct b|].
    change (String y a +:+ b) with (String y (a +:+ b)). now destruct b.
Qed.

Lemma endswith_contains (c : ascii) (s : string) :
  Py.contains c s = false -> Py.endswith c s = false.
Proof.
  induction s as [|x s IH]; [reflexivity|].
  rewrite endswith_cons. cbn [Py.contains].
  destruct (Ascii.eqb_spec c x) as [->|Hne]; [discriminate|]. intros Hs.
  destruct s as [|y s]; [|now apply IH].
  destruct (Ascii.eqb_spec x c); congruence.
Qed.

(** A field never ends with a comma or a line feed. *)
Lemma csv_field_ending (c : ascii) (cell : value) :
  c = Py.COMMA \/ c = Py.LF -> Py.endswith c (csv_field cell) = false.
Proof.
  intros Hc. unfold csv_field. destruct (needs_quoting cell) eqn:Hq.
  - set (escaped := Py.replace Py.QUOTE _ (str cell)).
    change (Py.endswith c (String Py.QUOTE (escaped +:+ Py.char Py.QUOTE)) = false).
    rewrite endswith_cons.
    destruct (escaped +:+ Py.char Py.QUOTE) as [|x rest] eqn:Hrest;
      [destruct escaped; discriminate|].
    rewrite <- Hrest, endswith_append. cbn [Py.char Py.endswith].
    destruct Hc as [-> | ->]; reflexivity.
  - apply needs_quoting_false_contains in Hq as (Hcomma & _ & Hlf).
    apply endswith_contains. now destruct Hc as [-> | ->].
Qed.

Lemma join_snoc (sep : string) (l : list string) (x : string) :
  l <> [] -> Py.join sep (l ++ [x]) = Py.join sep l +:+ sep +:+ x.
Proof.
  induction l as [|y [|z l] IH]; intros Hne; [contradiction|reflexivity|].
  change (Py.join sep ((y :: z :: l) ++ [x]))
    with (y +:+ sep +:+ Py.join sep ((z :: l) ++ [x])).
  rewrite IH by discriminate.
  change (Py.join sep (y :: z :: l)) with (y +:+ sep +:+ Py.join sep (z :: l)).
  now rewrite !append_assoc.
Qed.

Lemma join_empty (sep : string) (l : list string) :
  sep <> EmptyString -> Py.join sep l = EmptyString ->
  l = [] \/ l = [EmptyString].
Proof.
  intros Hsep. destruct l as [|x [|y l]]; [now left | simpl; intros ->; now right|].
  change (Py.join sep (x :: y :: l)) with (x +:+ sep +:+ Py.join sep (y :: l)).
  destruct x; [|discriminate]. destruct sep; [contradiction | discriminate].
Qed.

(** The end of a joined text, by its last piece. *)
Lemma endswith_join (c sep : ascii) (l : list string) (x : string) :
  Py.endswith c (Py.join (Py.char sep) (l ++ [x]))
  = match x with
    | String _ _ => Py.endswith c x
    | EmptyString =>
        match l with
        | [] => false
        | _ :: _ => Ascii.eqb sep c
        end
    end.
Proof.
  destruct l as [|y l].
  - simpl. now destruct x.
  - rewrite join_snoc by discriminate. rewrite !endswith_append.
    destruct x; reflexivity.
Qed.

Lemma row_text_empty (row : list value) :
  Py.join (Py.char Py.COMMA) (csv_row row) = EmptyString
  <-> row = [] \/ row = [VStr EmptyString].
Proof.
  split.
  - intros Htext. apply join_empty in Htext; [|discriminate].
    rewrite csv_row_map in Htext.
    destruct Htext as [Hnil | Hone].
    + destruct row; [now left | discriminate].
    + destruct row as [|cell [|cell' row]]; try discriminate.
      injection Hone as Hfield. right.
      apply csv_field_empty_iff, str_empty_iff in Hfield. now subst.
  - intros [-> | ->]; reflexivity.
Qed.

(** The text of a row ends with a comma exactly when the row has two
    cells or more and the last one is the empty string. *)
Lemma row_text_ending (row : list value) :
  Py.endswith Py.COMMA (Py.join (Py.char Py.COMMA) (csv_row row)) = true
  <-> 2 <= length row /\ last row = Some (VStr EmptyString).
Proof.
  rewrite csv_row_map.
  destruct row as [|cell row _] using rev_ind.
  - simpl. split; [discriminate | intros (Hlen & _); simpl in Hlen; lia].
  - rewrite map_app, last_snoc, length_app. cbn [map length].
    rewrite endswith_join.
    destruct (csv_field cell) as [|x field] eqn:Hfield.
    + apply csv_field_empty_iff, str_empty_iff in Hfield as ->.
      destruct row as [|cell' row].
      * simpl. split; [discriminate | intros (Hlen & _); lia].
      * cbn [map]. split; [intros _ | reflexivity].
        split; [simpl; lia | reflexivity].
    + rewrite <- Hfield, csv_field_ending by now left.
      split; [discriminate|]. intros (_ & [= ->]). discriminate.
Qed.

(** The text of a row never ends with a line feed. *)
Lemma row_text_no_line_feed (row : list value) :
  Py.endswith Py.LF (Py.join (Py.char Py.COMMA) (csv_row row)) = false.
Proof.
  rewrite csv_row_map.
  destruct row as [|cell row _] using rev_ind; [reflexivity|].
  rewrite map_app. cbn [map]. rewrite endswith_join.
  destruct (csv_field cell) as [|x field] eqn:Hfield.
  - now destruct (map csv_field row).
  - rewrite <- Hfield. apply csv_field_ending. now right.
Qed.

(** The document ends with a line feed exactly when the grid has two rows
    or more and the text of the last one is empty. *)
Lemma document_ending (values : grid) :
  Py.endswith Py.LF (Py.join (Py.char Py.LF) (csv_content values)) = true
  <-> 2 <= length values
      /\ (last values = Some [] \/ last values = Some [VStr EmptyString]).
Proof.
  rewrite csv_content_map.
  destruct values as [|row values _] using rev_ind.
  - simpl. split; [discriminate | intros (Hlen & _); simpl in Hlen; lia].
  - rewrite map_app, last_snoc, length_app. cbn [map length].
    rewrite endswith_join.
    destruct (Py.join (Py.char Py.COMMA) (csv_row row)) as [|x line] eqn:Hline.
    + apply row_text_empty in Hline.
      destruct values as [|row' values].
      * simpl. split; [discriminate | intros (Hlen & _); lia].
      * cbn [map]. split; [intros _ | reflexivity].
        split; [simpl; lia|]. destruct Hline as [-> | ->]; [now left | now right].
    + rewrite <- Hline, row_text_no_line_feed. split; [discriminate|].
      intros (_ & Hlast).
      assert (Hempty : Py.join (Py.char Py.COMMA) (csv_row row) = EmptyString).
      { apply row_text_empty. destruct Hlast as [[= ->] | [= ->]]; [now left | now right]. }
      congruence.
Qed.

End Endings.

(** ** The properties of the export, C1 to C10 *)

(** C1: a field is wrapped in double quotes exactly when the display string
    of its cell holds a comma, a double quote or a line feed, and a cell
    whose display string holds none of them is written as that string. *)
Theorem C1_quoted_iff_special (cell : value) :
  (wrapped (csv_field cell) <-> special (str cell))
  /\ (~ special (str cell) -> csv_field cell = str cell).
Proof.
  unfold csv_field. destruct (needs_quoting cell) eqn:Hq.
  - apply needs_quoting_special in Hq. split.
    + split; [intros _; exact Hq | intros _; now eexists].
    + intros Hn. contradiction.
  - split; [|reflexivity]. split.
    + intros Hw%wrapped_contains_quote.
      apply needs_quoting_false_contains in Hq as (_ & Hquote & _). congruence.
    + intros Hs. apply needs_quoting_not_special in Hq. contradiction.
Qed.

Lemma C1_quoted_iff_special_witness :
  csv_field (VStr "x y") = "x y"
  /\ wrapped (csv_field (VStr "b,c")).
Proof.
  split.
  - apply (C1_quoted_iff_special (VStr "x y")).
    intros Hs. apply needs_quoting_special in Hs. vm_compute in Hs. discriminate.
  - apply (C1_quoted_iff_special (VStr "b,c")).
    apply needs_quoting_special. vm_compute. reflexivity.
Defined.

(** C2: for a cell whose display string holds a comma, a double quote or a
    line feed, the field is the display string with every double quote
    written twice and every other character unchanged, between two double
    quotes. *)
Theorem C2_quoted_field (cell : value) :
  special (str cell) ->
  csv_field cell
  = Py.char Py.QUOTE +:+ double_quotes (str cell) +:+ Py.char Py.QUOTE.
Proof.
  intros Hs%needs_quoting_special. unfold csv_field. rewrite Hs.
  now rewrite replace_double_quotes.
Qed.

Lemma C2_quoted_field_witness :
  special (str (VStr ("d" +:+ Py.char Py.QUOTE +:+ "e")))
  /\ csv_field (VStr ("d" +:+ Py.char Py.QUOTE +:+ "e"))
     = Py.char Py.QUOTE +:+ "d" +:+ Py.char Py.QUOTE +:+ Py.char Py.QUOTE
       +:+ "e" +:+ Py.char Py.QUOTE.
Proof.
  assert (Hs : special (str (VStr ("d" +:+ Py.char Py.QUOTE +:+ "e")))).
  { apply needs_quoting_special. vm_compute. reflexivity. }
  split; [exact Hs|].
  rewrite (C2_quoted_field (VStr ("d" +:+ Py.char Py.QUOTE +:+ "e")) Hs).
  vm_compute. reflexivity.
Defined.

(** C3, as the script has it: for a grid with at least one row in which
    every row has at least one cell, reading the document back gives
    exactly the grid of display strings. *)
Theorem C3_round_trip (service : Service) (sheet_name range_name : string)
    (w : World) (values : grid) :
  get_values (values_get service (sheet_name +:+ "!" +:+ range_name)) = values ->
  values <> [] ->
  Forall (fun row => row <> []) values ->
  exists document,
    (export_sheet_to_csv service sheet_name range_name w).1 = Some document
    /\ Reader.parse_csv document = map (map str) values.
Proof.
  intros Hv Hne Hrows. eexists. split.
  - rewrite export_some by now rewrite Hv. rewrite Hv. reflexivity.
  - rewrite parse_csv_document by exact Hne.
    now apply displayed_rows_not_empty.
Qed.

Lemma C3_round_trip_witness :
  exists document,
    (export_sheet_to_csv
       (constant_service ["Sheet1"]
          (Some [[VStr "a"; VStr "b,c"];
                 [VStr ("d" +:+ Py.char Py.QUOTE +:+ "e"); VStr "f"]]))
       "Sheet1" "A:Z" empty_world).1 = Some document
    /\ Reader.parse_csv document
       = [["a"; "b,c"]; ["d" +:+ Py.char Py.QUOTE +:+ "e"; "f"]].
Proof.
  apply (C3_round_trip
           (constant_service ["Sheet1"]
              (Some [[VStr "a"; VStr "b,c"];
                     [VStr ("d" +:+ Py.char Py.QUOTE +:+ "e"); VStr "f"]]))
           "Sheet1" "A:Z" empty_world
           [[VStr "a"; VStr "b,c"];
            [VStr ("d" +:+ Py.char Py.QUOTE +:+ "e"); VStr "f"]]).
  - reflexivity.
  - discriminate.
  - repeat constructor; discriminate.
Defined.

(** C3, as the claim has it, fails on a grid with a row without cells: the
    row is written as an empty line, which reads back as a row with one
    empty field.  No reader can do better: a row without cells and a row
    with one empty string cell are written as the same text. *)
Lemma C3_empty_row_not_recovered :
  (exists document,
      (export_sheet_to_csv
         (constant_service ["Sheet1"] (Some [[VStr "a"]; []]))
         "Sheet1" "A:Z" empty_world).1 = Some document
      /\ Reader.parse_csv document = [["a"]; [EmptyString]]
      /\ Reader.parse_csv document <> map (map str) [[VStr "a"]; []])
  /\ (export_sheet_to_csv
        (constant_service ["Sheet1"] (Some [[VStr "a"]; []]))
        "Sheet1" "A:Z" empty_world).1
     = (export_sheet_to_csv
          (constant_service ["Sheet1"] (Some [[VStr "a"]; [VStr EmptyString]]))
          "Sheet1" "A:Z" empty_world).1.
Proof.
  split; [|reflexivity].
  eexists. split; [reflexivity|]. split; [reflexivity | discriminate].
Qed.

(** C4, as the script has it: for a grid with at least one row, the text
    split at the line feeds outside quotes has one line for every row of
    the grid, in order; the line of a row with at least one cell, split at
    the commas outside quotes, has one field for every cell of the row, in
    order, the field of that cell, from which the display string of the
    cell is read; a short row gets no padding; the line of a row without
    cells is empty. *)
Theorem C4_text_rows_and_fields (service : Service)
    (sheet_name range_name : string) (w : World) (values : grid) :
  get_values (values_get service (sheet_name +:+ "!" +:+ range_name)) = values ->
  values <> [] ->
  exists document,
    (export_sheet_to_csv service sheet_name range_name w).1 = Some document
    /\ length (Reader.split_outside Py.LF false document) = length values
    /\ forall i row, values !! i = Some row ->
         exists line,
           Reader.split_outside Py.LF false document !! i = Some line
           /\ (row = [] -> line = EmptyString)
           /\ (row <> [] ->
               Reader.split_outside Py.COMMA false line = map csv_field row
               /\ length (Reader.split_outside Py.COMMA false line) = length row
               /\ map Reader.unquote (Reader.split_outside Py.COMMA false line)
                  = map str row).
Proof.
  intros Hv Hne. eexists. split.
  { rewrite export_some by now rewrite Hv. rewrite Hv. reflexivity. }
  assert (Hlines : Reader.split_outside Py.LF false
                     (Py.join (Py.char Py.LF) (csv_content values))
                   = csv_content values).
  { apply split_outside_join.
    - rewrite csv_content_map. destruct values; [contradiction | discriminate].
    - rewrite csv_content_map. apply List.Forall_forall. intros line Hin.
      apply in_map_iff in Hin as (row & <- & _).
      rewrite csv_row_map. apply scan_line. }
  rewrite Hlines, csv_content_map. split; [apply length_map|].
  intros i row Hi. exists (Py.join (Py.char Py.COMMA) (csv_row row)).
  split; [|split].
  - change (map ?f values) with (f <$> values).
    now rewrite list_lookup_fmap, Hi.
  - now intros ->.
  - intros Hrow.
    assert (Hfields : Reader.split_outside Py.COMMA false
                        (Py.join (Py.char Py.COMMA) (csv_row row))
                      = map csv_field row).
    { rewrite csv_row_map. apply split_outside_join.
      - destruct row; [contradiction | discriminate].
      - apply List.Forall_forall. intros field Hin.
        apply in_map_iff in Hin as (cell & <- & _).
        apply scan_field. now left. }
    rewrite Hfields. split; [reflexivity|]. split; [apply length_map|].
    rewrite map_map. apply map_ext. intros cell. apply unquote_csv_field.
Qed.

Lemma C4_text_rows_and_fields_witness :
  exists document,
    (export_sheet_to_csv
       (constant_service ["Sheet1"] (Some [[VStr "x"; VStr "y"]; [VStr "z"]]))
       "Sheet1" "A:Z" empty_world).1 = Some document
    /\ length (Reader.split_outside Py.LF false document) = 2
    /\ forall i row, [[VStr "x"; VStr "y"]; [VStr "z"]] !! i = Some row ->
         exists line,
           Reader.split_outside Py.LF false document !! i = Some line
           /\ (row = [] -> line = EmptyString)
           /\ (row <> [] ->
               Reader.split_outside Py.COMMA false line = map csv_field row
               /\ length (Reader.split_outside Py.COMMA false line) = length row
               /\ map Reader.unquote (Reader.split_outside Py.COMMA false line)
                  = map str row).
Proof.
  apply (C4_text_rows_and_fields
           (constant_service ["Sheet1"] (Some [[VStr "x"; VStr "y"]; [VStr "z"]]))
           "Sheet1" "A:Z" empty_world [[VStr "x"; VStr "y"]; [VStr "z"]]).
  - reflexivity.
  - discriminate.
Defined.

(** C4, as the claim has it, fails on a row without cells: the row is
    written as an empty line, and an empty line has one field, the empty
    one, where the row has no cell. *)
Lemma C4_empty_row_has_one_field :
  exists document line,
    (export_sheet_to_csv
       (constant_service ["Sheet1"] (Some [[VStr "x"]; []]))
       "Sheet1" "A:Z" empty_world).1 = Some document
    /\ Reader.split_outside Py.LF false document !! 1 = Some line
    /\ length (Reader.split_outside Py.COMMA false line) = 1
    /\ length (Reader.split_outside Py.COMMA false line)
       <> length (@nil value).
Proof.
  exists ("x" +:+ Py.char Py.LF), EmptyString.
  repeat split. discriminate.
Qed.

(** Scenario D: the short row is written as it is. *)
Example scenario_D (w : World) :
  export_sheet_to_csv
    (constant_service ["Sheet1"] (Some [[VStr "x"; VStr "y"]; [VStr "z"]]))
    "Sheet1" "A:Z" w
  = (Some ("x,y" +:+ Py.char Py.LF +:+ "z"), w).
Proof. reflexivity. Qed.

(** C5, as the script has it: for a grid with at least one row, the
    document is the texts of the rows with one line feed between each two
    neighbours and none added after the last one, and the text of a row is
    the fields of its cells with one comma between each two neighbours and
    none added after the last one.  The text of a row ends with a comma
    exactly when the row has two cells or more and the last one is the
    empty string; the document ends with a line feed exactly when the grid
    has two rows or more and the last one has no cell or one empty string
    cell. *)
Theorem C5_joined (service : Service) (sheet_name range_name : string)
    (w : World) (values : grid) :
  get_values (values_get service (sheet_name +:+ "!" +:+ range_name)) = values ->
  values <> [] ->
  exists (lines : list string) (document : string),
    (export_sheet_to_csv service sheet_name range_name w).1 = Some document
    /\ Joined (Py.char Py.LF) lines document
    /\ Forall2 (fun row line =>
                  Joined (Py.char Py.COMMA) (map csv_field row) line
                  /\ (Py.endswith Py.COMMA line = true
                      <-> 2 <= length row /\ last row = Some (VStr EmptyString)))
               values lines
    /\ (Py.endswith Py.LF document = true
        <-> 2 <= length values
            /\ (last values = Some [] \/ last values = Some [VStr EmptyString])).
Proof.
  intros Hv Hne. exists (csv_content values), (Py.join (Py.char Py.LF) (csv_content values)).
  split; [|split; [|split]].
  - rewrite export_some by now rewrite Hv. now rewrite Hv.
  - apply join_Joined.
  - rewrite csv_content_map. clear Hv Hne.
    induction values as [|row values IH]; constructor; [|exact IH].
    split; [rewrite csv_row_map; apply join_Joined | apply row_text_ending].
  - apply document_ending.
Qed.

Lemma C5_joined_witness :
  exists (lines : list string) (document : string),
    (export_sheet_to_csv
       (constant_service ["Sheet1"] (Some [[VStr "x"; VStr "y"]; [VStr "z"]]))
       "Sheet1" "A:Z" empty_world).1 = Some document
    /\ Joined (Py.char Py.LF) lines document
    /\ Forall2 (fun row line =>
                  Joined (Py.char Py.COMMA) (map csv_field row) line
                  /\ (Py.endswith Py.COMMA line = true
                      <-> 2 <= length row /\ last row = Some (VStr EmptyString)))
               [[VStr "x"; VStr "y"]; [VStr "z"]] lines
    /\ (Py.endswith Py.LF document = true
        <-> 2 <= length [[VStr "x"; VStr "y"]; [VStr "z"]]
            /\ (last [[VStr "x"; VStr "y"]; [VStr "z"]] = Some []
                \/ last [[VStr "x"; VStr "y"]; [VStr "z"]]
                   = Some [VStr EmptyString])).
Proof.
  apply (C5_joined
           (constant_service ["Sheet1"] (Some [[VStr "x"; VStr "y"]; [VStr "z"]]))
           "Sheet1" "A:Z" empty_world [[VStr "x"; VStr "y"]; [VStr "z"]]).
  - reflexivity.
  - discriminate.
Defined.

(** C5, as the claim has it, fails when the last field of a row or the
    last row of the grid is empty: the separator before it is then the last
    character.  The grid with the rows a and one empty string cell gives a
    document that ends with a line feed, and the row of the integer -12 and
    an empty string cell gives a text that ends with a comma. *)
Lemma C5_text_ends_with_separator :
  (exists document,
      (export_sheet_to_csv
         (constant_service ["Sheet1"] (Some [[VStr "a"]; [VStr EmptyString]]))
         "Sheet1" "A:Z" empty_world).1 = Some document
      /\ document = "a" +:+ Py.char Py.LF
      /\ Py.endswith Py.LF document = true)
  /\ (exists document,
         (export_sheet_to_csv
            (constant_service ["Sheet1"] (Some [[VInt (-12); VStr EmptyString]]))
            "Sheet1" "A:Z" empty_world).1 = Some document
         /\ document = "-12,"
         /\ Py.endswith Py.COMMA document = true).
Proof.
  split; eexists; repeat split.
Qed.

(** C6: when the grid of a tab is empty (the response has no values, or an
    empty list of them), the serializer returns no text, which is not the
    empty text, and prints that no data was found; the driver leaves the
    files as they were, and the tabs after it are exported from the world
    it leaves. *)
Theorem C6_empty_tab (service : Service) (output_dir sheet_name : string)
    (before after : list string) (w : World) :
  get_values (values_get service (sheet_name +:+ "!" +:+ "A:Z")) = [] ->
  export_sheet_to_csv service sheet_name "A:Z" w
  = (None, print ("No data found in sheet: " +:+ sheet_name) w)
  /\ (export_sheet_to_csv service sheet_name "A:Z" w).1 <> Some EmptyString
  /\ files (export_tab service output_dir sheet_name w) = files w
  /\ stdout (export_tab service output_dir sheet_name w)
     = stdout w ++ ["Exporting sheet: " +:+ sheet_name;
                    "No data found in sheet: " +:+ sheet_name]
  /\ export_tabs service output_dir (before ++ sheet_name :: after) w
     = export_tabs service output_dir after
         (export_tab service output_dir sheet_name
            (export_tabs service output_dir before w)).
Proof.
  intros Hnil. split; [now apply export_none|].
  split; [now rewrite export_none|].
  split; [|split].
  - rewrite export_tab_files, export_none by exact Hnil. reflexivity.
  - unfold export_tab. rewrite export_none by exact Hnil. simpl.
    now rewrite <- app_assoc.
  - now rewrite export_tabs_app.
Qed.

Lemma C6_empty_tab_witness :
  files (export_tab (constant_service ["Empty"; "Data"] (Some []))
           "sheets_export" "Empty" empty_world) = files empty_world
  /\ stdout (export_tab (constant_service ["Empty"; "Data"] None)
               "sheets_export" "Empty" empty_world)
     = ["Exporting sheet: Empty"; "No data found in sheet: Empty"].
Proof.
  split.
  - apply (C6_empty_tab (constant_service ["Empty"; "Data"] (Some []))
             "sheets_export" "Empty" [] ["Data"] empty_world).
    reflexivity.
  - apply (C6_empty_tab (constant_service ["Empty"; "Data"] None)
             "sheets_export" "Empty" [] ["Data"] empty_world).
    reflexivity.
Defined.

(** C7, as the script has it: a field is computed from the display string
    [str(cell)] alone; the empty string is the display string of the empty
    string cell and of no other cell, and it is written as an empty field;
    the display string of a null cell is the text None; a row gets as many
    fields as it has cells, so a cell that is absent gives no field. *)
Theorem C7_display_string (cell : value) :
  csv_field cell = csv_field (VStr (str cell))
  /\ (str cell = EmptyString <-> cell = VStr EmptyString)
  /\ (csv_field cell = EmptyString <-> cell = VStr EmptyString)
  /\ str VNone = "None"
  /\ forall row, length (csv_row row) = length row.
Proof.
  split; [apply csv_field_display|].
  split; [apply str_empty_iff|].
  split; [|split; [reflexivity | apply csv_row_length]].
  rewrite csv_field_empty_iff. apply str_empty_iff.
Qed.

Lemma C7_display_string_witness :
  csv_field (VInt (-12)) = "-12" /\ csv_field (VStr EmptyString) = EmptyString.
Proof.
  split.
  - destruct (C7_display_string (VInt (-12))) as (-> & _). reflexivity.
  - apply (C7_display_string (VStr EmptyString)). reflexivity.
Defined.

(** C7, as the claim has it, fails on a null cell: its display string is
    the text None, and so is its field.  A cell that is absent at the end
    of a row is not written as an empty field either: the row of scenario D
    with one cell has one field. *)
Lemma C7_null_cell_not_empty :
  str VNone <> EmptyString
  /\ csv_field VNone = "None"
  /\ csv_field VNone <> EmptyString
  /\ csv_row [VStr "z"] = ["z"].
Proof. repeat split; discriminate. Qed.

(** C8: the grid of scenario A is written as two lines with one line feed
    between them: the first is a, a comma and the quoted field b,c; the
    second is the quoted field of d, a doubled double quote and e, then a
    comma and f. *)
Theorem C8_scenario_A (service : Service) (sheet_name range_name : string)
    (w : World) :
  get_values (values_get service (sheet_name +:+ "!" +:+ range_name))
  = [[VStr "a"; VStr "b,c"]; [VStr ("d" +:+ Py.char Py.QUOTE +:+ "e"); VStr "f"]] ->
  export_sheet_to_csv service sheet_name range_name w
  = (Some (("a," +:+ Py.char Py.QUOTE +:+ "b,c" +:+ Py.char Py.QUOTE)
           +:+ Py.char Py.LF
           +:+ (Py.char Py.QUOTE +:+ "d" +:+ Py.char Py.QUOTE +:+ Py.char Py.QUOTE
                +:+ "e" +:+ Py.char Py.QUOTE +:+ ",f")),
     w).
Proof.
  intros Hv. rewrite export_some by now rewrite Hv.
  rewrite Hv. reflexivity.
Qed.

Lemma C8_scenario_A_witness :
  export_sheet_to_csv
    (constant_service ["Sheet1"]
       (Some [[VStr "a"; VStr "b,c"];
              [VStr ("d" +:+ Py.char Py.QUOTE +:+ "e"); VStr "f"]]))
    "Sheet1" "A:Z" empty_world
  = (Some (("a," +:+ Py.char Py.QUOTE +:+ "b,c" +:+ Py.char Py.QUOTE)
           +:+ Py.char Py.LF
           +:+ (Py.char Py.QUOTE +:+ "d" +:+ Py.char Py.QUOTE +:+ Py.char Py.QUOTE
                +:+ "e" +:+ Py.char Py.QUOTE +:+ ",f")),
     empty_world).
Proof.
  apply (C8_scenario_A
           (constant_service ["Sheet1"]
              (Some [[VStr "a"; VStr "b,c"];
                     [VStr ("d" +:+ Py.char Py.QUOTE +:+ "e"); VStr "f"]]))
           "Sheet1" "A:Z" empty_world).
  reflexivity.
Defined.

(** C9: the file name of a tab is its name, character by character, with
    every slash turned into an underscore, followed by .csv; it holds no
    slash, and the tab Q1/Report is written to Q1_Report.csv. *)
Theorem C9_filename (sheet_name : string) :
  (exists base,
      filename_of sheet_name = base +:+ ".csv"
      /\ String.length base = String.length sheet_name
      /\ forall i, String.get i base = sanitize_char <$> String.get i sheet_name)
  /\ Py.contains Py.SLASH (filename_of sheet_name) = false
  /\ filename_of "Q1/Report" = "Q1_Report.csv".
Proof.
  split; [|split; [|reflexivity]].
  - exists (Py.replace Py.SLASH (Py.char Py.UNDERSCORE) sheet_name).
    split; [reflexivity|]. split.
    + apply replace_char_length.
    + intros i. apply replace_char_get.
  - unfold filename_of. rewrite contains_append, replace_char_contains by discriminate.
    reflexivity.
Qed.

(** C10: the driver writes the file of a tab exactly when the text of the
    tab is a string with at least one character: then the file holds that
    text, and otherwise the files are as they were; in particular the grid
    with one row of one empty string cell gives the empty text and no
    file. *)
Theorem C10_written_iff_nonempty (service : Service)
    (output_dir sheet_name : string) (w : World) :
  let csv_data := (export_sheet_to_csv service sheet_name "A:Z" w).1 in
  let path := filepath_of output_dir sheet_name in
  let w' := export_tab service output_dir sheet_name w in
  (forall text, csv_data = Some text -> text <> EmptyString ->
     files w' = <[ path := text ]> (files w))
  /\ (csv_data = None \/ csv_data = Some EmptyString -> files w' = files w)
  /\ (files w !! path = None ->
      (is_Some (files w' !! path)
       <-> exists text, csv_data = Some text /\ text <> EmptyString))
  /\ (get_values (values_get service (sheet_name +:+ "!" +:+ "A:Z"))
      = [[VStr EmptyString]] ->
      csv_data = Some EmptyString /\ files w' = files w).
Proof.
  intros csv_data path w'.
  assert (Hyes : forall text, csv_data = Some text -> text <> EmptyString ->
                 files w' = <[ path := text ]> (files w)).
  { intros text Hd Hne. subst w'. rewrite export_tab_files. fold csv_data.
    rewrite Hd. destruct text; [contradiction | reflexivity]. }
  assert (Hno : csv_data = None \/ csv_data = Some EmptyString -> files w' = files w).
  { intros Hd. subst w'. rewrite export_tab_files. fold csv_data.
    destruct Hd as [-> | ->]; reflexivity. }
  split; [exact Hyes|]. split; [exact Hno|]. split.
  - intros Hfresh. split.
    + intros Hsome. apply truthy_true.
      destruct (truthy csv_data) eqn:Ht; [reflexivity|].
      apply truthy_false, Hno in Ht. rewrite Ht, Hfresh in Hsome.
      now destruct Hsome.
    + intros (text & Hd & Hne). rewrite (Hyes text Hd Hne).
      rewrite lookup_insert_eq. now eexists.
  - intros Hv.
    assert (Hd : csv_data = Some EmptyString).
    { subst csv_data. rewrite export_some by now rewrite Hv.
      rewrite Hv. reflexivity. }
    split; [exact Hd | apply Hno; now right].
Qed.

Lemma C10_written_iff_nonempty_witness :
  files (export_tab (constant_service ["Blank"] (Some [[VStr EmptyString]]))
           "sheets_export" "Blank" empty_world) = files empty_world
  /\ files (export_tab (constant_service ["Q1/Report"] (Some [[VStr "a"]]))
              "sheets_export" "Q1/Report" empty_world)
     = <[ "sheets_export/Q1_Report.csv" := "a" ]> (files empty_world).
Proof.
  split.
  - apply (C10_written_iff_nonempty
             (constant_service ["Blank"] (Some [[VStr EmptyString]]))
             "sheets_export" "Blank" empty_world).
    reflexivity.
  - destruct (C10_written_iff_nonempty
                (constant_service ["Q1/Report"] (Some [[VStr "a"]]))
                "sheets_export" "Q1/Report" empty_world) as (Hwritten & _).
    apply (Hwritten "a"); [reflexivity | discriminate].
Defined.

(** * Further properties of the script *)

(** ** Paths of the files *)

Section Paths.

Lemma length_append (a b : string) :
  String.length (a +:+ b) = String.length a + String.length b.
Proof. induction a as [|x a IH]; [reflexivity | simpl; now rewrite IH]. Qed.

Lemma append_inj_l (a b suffix : string) :
  a +:+ suffix = b +:+ suffix -> a = b.
Proof.
  revert b. induction a as [|x a IH]; intros [|y b] Heq.
  - reflexivity.
  - apply (f_equal String.length) in Heq. simpl in Heq.
    rewrite length_append in Heq. lia.
  - apply (f_equal String.length) in Heq. simpl in Heq.
    rewrite length_append in Heq. lia.
  - simpl in Heq. injection Heq as -> Heq. f_equal. now apply IH.
Qed.

Lemma replace_append (old : ascii) (new a b : string) :
  Py.replace old new (a +:+ b) = Py.replace old new a +:+ Py.replace old new b.
Proof.
  induction a as [|x a IH]; [reflexivity|].
  change (String x a +:+ b) with (String x (a +:+ b)).
  rewrite !replace_cons, IH. destruct (Ascii.eqb x old); [|reflexivity].
  now rewrite append_assoc.
Qed.

Lemma replace_absent (old : ascii) (new s : string) :
  Py.contains old s = false -> Py.replace old new s = s.
Proof.
  induction s as [|x s IH]; [reflexivity|]. simpl.
  destruct (Ascii.eqb_spec old x) as [->|Hne]; [discriminate|].
  intros Hs. destruct (Ascii.eqb_spec x old) as [Heq|_]; [congruence|].
  now rewrite IH.
Qed.

(** Without the new character in the two strings, the replacement of a
    character by it loses nothing. *)
Lemma replace_char_inj (old new : ascii) (s1 s2 : string) :
  Py.contains new s1 = false -> Py.contains new s2 = false ->
  Py.replace old (Py.char new) s1 = Py.replace old (Py.char new) s2 ->
  s1 = s2.
Proof.
  revert s2. induction s1 as [|x s1 IH]; intros [|y s2] H1 H2 Heq.
  - reflexivity.
  - rewrite replace_cons in Heq. simpl in Heq.
    destruct (Ascii.eqb y old); discriminate.
  - rewrite replace_cons in Heq. simpl in Heq.
    destruct (Ascii.eqb x old); discriminate.
  - simpl in H1, H2.
    destruct (Ascii.eqb_spec new x) as [|Hx]; [discriminate|].
    destruct (Ascii.eqb_spec new y) as [|Hy]; [discriminate|].
    rewrite !replace_cons in Heq.
    destruct (Ascii.eqb_spec x old) as [->|Hxo];
      destruct (Ascii.eqb_spec y old) as [->|Hyo]; simpl in Heq.
    + injection Heq as Heq. f_equal. now apply IH.
    + injection Heq as Hc _. congruence.
    + injection Heq as Hc _. congruence.
    + injection Heq as -> Heq. f_equal. now apply IH.
Qed.

Lemma startswith_contains (c : ascii) (s : string) :
  Py.contains c s = false -> Py.startswith c s = false.
Proof.
  destruct s as [|x s]; [reflexivity|]. simpl.
  rewrite (Ascii.eqb_sym x c). now destruct (Ascii.eqb c x).
Qed.

Lemma filename_no_slash (sheet_name : string) :
  Py.contains Py.SLASH (filename_of sheet_name) = false.
Proof.
  unfold filename_of. rewrite contains_append, replace_char_contains by discriminate.
  reflexivity.
Qed.

Lemma has_suffix_append (suffix a b : string) :
  has_suffix suffix b -> has_suffix suffix (a +:+ b).
Proof.
  intros (before & ->). exists (a +:+ before). now rewrite append_assoc.
Qed.

Lemma filepath_suffix (output_dir sheet_name : string) :
  has_suffix ".csv" (filepath_of output_dir sheet_name).
Proof.
  assert (Hf : has_suffix ".csv" (filename_of sheet_name)) by now eexists.
  unfold filepath_of, Py.os_path_join.
  destruct (Py.startswith _ _); [exact Hf|].
  destruct (_ || _); repeat first [exact Hf | apply has_suffix_append].
Qed.

Lemma token_pickle_not_csv : ~ has_suffix ".csv" TOKEN_PICKLE.
Proof.
  intros (before & Heq).
  assert (Hlen : String.length before = 8).
  { apply (f_equal String.length) in Heq. rewrite length_append in Heq.
    simpl in Heq. lia. }
  do 9 (destruct before as [|? before]; try discriminate).
Qed.

Lemma filepath_not_token (output_dir sheet_name : string) :
  filepath_of output_dir sheet_name <> TOKEN_PICKLE.
Proof.
  intros Heq. apply token_pickle_not_csv. rewrite <- Heq. apply filepath_suffix.
Qed.

End Paths.

(** X1: the path of the file of a tab is the output directory, a slash
    unless the directory is empty or ends with one, and the file name; the
    file name holds no slash, whatever the name of the tab, so the file lies
    in the output directory itself; the path ends with .csv and is never the
    token file. *)
Theorem X1_path_in_output_dir (output_dir sheet_name : string) :
  filepath_of output_dir sheet_name
  = (if (match output_dir with EmptyString => true | _ => false end)
        || Py.endswith Py.SLASH output_dir
     then output_dir else output_dir +:+ "/")
    +:+ filename_of sheet_name
  /\ Py.contains Py.SLASH (filename_of sheet_name) = false
  /\ has_suffix ".csv" (filepath_of output_dir sheet_name)
  /\ filepath_of output_dir sheet_name <> TOKEN_PICKLE.
Proof.
  split; [|split; [apply filename_no_slash|split;
                   [apply filepath_suffix | apply filepath_not_token]]].
  unfold filepath_of, Py.os_path_join.
  rewrite startswith_contains by apply filename_no_slash.
  destruct (_ || _); [reflexivity|]. now rewrite append_assoc.
Qed.

(** X2: two tab names that differ only in slashes against underscores get
    the same file name; two tab names without underscores get the same file
    name only when they are equal. *)
Theorem X2_filename_collisions :
  (forall a b : string,
      filename_of (a +:+ "/" +:+ b) = filename_of (a +:+ "_" +:+ b))
  /\ (forall name1 name2 : string,
        Py.contains Py.UNDERSCORE name1 = false ->
        Py.contains Py.UNDERSCORE name2 = false ->
        filename_of name1 = filename_of name2 -> name1 = name2).
Proof.
  split.
  - intros a b. unfold filename_of. f_equal.
    rewrite !replace_append. reflexivity.
  - intros name1 name2 H1 H2 Heq. unfold filename_of in Heq.
    apply append_inj_l in Heq. now apply replace_char_inj in Heq.
Qed.

Lemma X2_filename_collisions_witness :
  filename_of "2024/Q1" = filename_of "2024_Q1" /\ "Q1/a" = "Q1/a".
Proof.
  destruct X2_filename_collisions as (Hsame & Hinj). split.
  - apply (Hsame "2024" "Q1").
  - apply (Hinj "Q1/a" "Q1/a"); reflexivity.
Defined.

(** ** The run over the tabs *)

Section Run.

Variable service : Service.
Variable output_dir : string.

Lemma tab_text_world (sheet_name : string) (w : World) :
  (export_sheet_to_csv service sheet_name "A:Z" w).1 = tab_text service sheet_name.
Proof. apply export_data_world. Qed.

Lemma export_tab_files_text (sheet_name : string) (w : World) :
  files (export_tab service output_dir sheet_name w)
  = match tab_text service sheet_name with
    | Some (String c text) =>
        <[ filepath_of output_dir sheet_name := String c text ]> (files w)
    | _ => files w
    end.
Proof. rewrite export_tab_files. now rewrite tab_text_world. Qed.



Lemma export_tabs_cons (sheet_name : string) (names : list string) (w : World) :
  export_tabs service output_dir (sheet_name :: names) w
  = export_tabs service output_dir names
      (export_tab service output_dir sheet_name w).
Proof. reflexivity. Qed.



(** A file after the loop is as before it, or holds the text of a tab
    that is written to its path. *)
Lemma export_tabs_files_cases (names : list string) (w : World) (path : string) :
  files (export_tabs service output_dir names w) !! path = files w !! path
  \/ exists sheet_name text,
       sheet_name ∈ names
       /\ path = filepath_of output_dir sheet_name
       /\ tab_text service sheet_name = Some text
       /\ text <> EmptyString
       /\ files (export_tabs service output_dir names w) !! path = Some text.
Proof.
  revert w. induction names as [|name names IH]; intros w; [now left|].
  rewrite export_tabs_cons.
  destruct (IH (export_tab service output_dir name w))
    as [Hsame | (later & text & Hin & Hpath & Htext & Hne & Hfile)].
  - rewrite Hsame, export_tab_files_text.
    destruct (tab_text service name) as [[|c text]|] eqn:Htext; [now left| |now left].
    destruct (decide (filepath_of output_dir name = path)) as [<-|Hother].
    + right. exists name, (String c text).
      rewrite lookup_insert_eq.
      split; [apply list_elem_of_here|]. repeat split; [exact Htext | discriminate].
    + left. now rewrite lookup_insert_ne.
  - right. exists later, text. split; [now apply list_elem_of_further|].
    now repeat split.
Qed.


(** The two ways the function ends: [os.makedirs] raises after the first
    line of output, or the tabs are exported. *)
Lemma download_all_sheets_cases (os : Os) (w : World) :
  (os_makedirs os output_dir (dirs w) (files w) = None
   /\ download_all_sheets os service output_dir w
      = (false,
         print ("Found " +:+ Py.str_of_nat (length (sheet_titles service))
                +:+ " sheets: " +:+ Py.join ", " (sheet_titles service)) w))
  \/ (exists made,
         os_makedirs os output_dir (dirs w) (files w) = Some made
         /\ download_all_sheets os service output_dir w
            = (true,
               print (Py.char Py.LF +:+ "All sheets exported to directory: "
                      +:+ output_dir)
                 (export_tabs service output_dir (sheet_titles service)
                    {| stdout := stdout w
                                 ++ ["Found "
                                     +:+ Py.str_of_nat (length (sheet_titles service))
                                     +:+ " sheets: "
                                     +:+ Py.join ", " (sheet_titles service)];
                       dirs := made;
                       files := files w |}))).
Proof.
  unfold download_all_sheets, makedirs. cbn [print dirs files stdout].
  destruct (os_makedirs os output_dir (dirs w) (files w)) as [made|].
  - right. now exists made.
  - now left.
Qed.

Lemma download_all_sheets_files (os : Os) (w : World) :
  files (download_all_sheets os service output_dir w).2
  = (if (download_all_sheets os service output_dir w).1
     then files (export_tabs service output_dir (sheet_titles service) w)
     else files w).
Proof.
  destruct (download_all_sheets_cases os w) as [(_ & ->) | (made & _ & ->)].
  - reflexivity.
  - cbn [fst snd print files]. now apply export_tabs_files_world.
Qed.


End Run.






(** ** The text of a tab *)

Section Text.

Lemma digits_plain (c : ascii) (d : Decimal.uint) :
  c = Py.COMMA \/ c = Py.QUOTE \/ c = Py.LF ->
  Py.contains c (NilEmpty.string_of_uint d) = false.
Proof.
  intros [-> | [-> | ->]]; induction d; first [reflexivity | assumption].
Qed.

Lemma numeral_plain (c : ascii) (z : Z) :
  c = Py.COMMA \/ c = Py.QUOTE \/ c = Py.LF ->
  Py.contains c (str (VInt z)) = false.
Proof.
  intros Hc. unfold str, NilZero.string_of_int, NilZero.string_of_uint.
  destruct (Z.to_int z) as [d|d].
  - destruct d; try (now apply (digits_plain c (_ _)));
      destruct Hc as [-> | [-> | ->]]; reflexivity.
  - assert (Hd : Py.contains c
                   (match d with
                    | Decimal.Nil => "0"
                    | _ => NilEmpty.string_of_uint d
                    end) = false).
    { destruct d; try (now apply (digits_plain c (_ _)));
        destruct Hc as [-> | [-> | ->]]; reflexivity. }
    destruct Hc as [-> | [-> | ->]]; exact Hd.
Qed.

Lemma needs_quoting_int (z : Z) : needs_quoting (VInt z) = false.
Proof.
  unfold needs_quoting.
  rewrite !numeral_plain by tauto. reflexivity.
Qed.

Lemma to_int_not_nil (z : Z) :
  Z.to_int z <> Decimal.Pos Decimal.Nil /\ Z.to_int z <> Decimal.Neg Decimal.Nil.
Proof.
  destruct z as [|p|p]; simpl; split; try discriminate;
    intros [= Hp]; now apply Unsigned.to_uint_nonnil in Hp.
Qed.

(** The field of a cell is computed from its display string. *)
Lemma csv_row_display (row : list value) :
  csv_row row = map (fun s => csv_field (VStr s)) (map str row).
Proof. rewrite csv_row_map, map_map. reflexivity. Qed.

Lemma csv_content_display (values : grid) :
  csv_content values
  = map (fun strings => Py.join (Py.char Py.COMMA)
                          (map (fun s => csv_field (VStr s)) strings))
        (map (map str) values).
Proof.
  rewrite csv_content_map, map_map. apply map_ext. intros row.
  now rewrite csv_row_display.
Qed.

End Text.

(** X6: an integer cell is never quoted: its field is its decimal numeral,
    which reads back as the same integer. *)
Theorem X6_integer_field (z : Z) :
  csv_field (VInt z) = str (VInt z)
  /\ Z.of_int <$> NilZero.int_of_string (csv_field (VInt z)) = Some z.
Proof.
  assert (Hf : csv_field (VInt z) = str (VInt z)).
  { unfold csv_field. now rewrite needs_quoting_int. }
  split; [exact Hf|]. rewrite Hf. unfold str.
  destruct (to_int_not_nil z) as (Hpos & Hneg).
  rewrite NilZero.isi by assumption. simpl. now rewrite DecimalZ.of_to.
Qed.

(** X7: the text of a grid is the empty string exactly when the grid is
    one row without cells or one row with one empty string cell. *)
Theorem X7_empty_text (service : Service) (sheet_name range_name : string)
    (w : World) (values : grid) :
  get_values (values_get service (sheet_name +:+ "!" +:+ range_name)) = values ->
  (export_sheet_to_csv service sheet_name range_name w).1 = Some EmptyString
  <-> values = [[]] \/ values = [[VStr EmptyString]].
Proof.
  intros Hv. split.
  - destruct values as [|row rest].
    { rewrite export_none by exact Hv. discriminate. }
    rewrite export_some by now rewrite Hv.
    rewrite Hv. intros [= Hdoc].
    apply join_empty in Hdoc; [|discriminate]. destruct Hdoc as [Hnil | Hone].
    { rewrite csv_content_map in Hnil. discriminate. }
    rewrite csv_content_map in Hone. destruct rest; [|discriminate].
    injection Hone as Hline.
    apply join_empty in Hline; [|discriminate]. destruct Hline as [Hnil | Hone].
    { rewrite csv_row_map in Hnil. destruct row; [now left | discriminate]. }
    rewrite csv_row_map in Hone. destruct row as [|cell [|cell' row]]; try discriminate.
    injection Hone as Hfield. right.
    apply csv_field_empty_iff, str_empty_iff in Hfield. now subst.
  - intros Hcases. rewrite export_some by (rewrite Hv; destruct Hcases as [-> | ->]; discriminate).
    rewrite Hv. destruct Hcases as [-> | ->]; reflexivity.
Qed.

Lemma X7_empty_text_witness :
  (export_sheet_to_csv (constant_service ["Blank"] (Some [[]]))
     "Blank" "A:Z" empty_world).1 = Some EmptyString.
Proof.
  apply (X7_empty_text (constant_service ["Blank"] (Some [[]]))
           "Blank" "A:Z" empty_world [[]]).
  - reflexivity.
  - now left.
Defined.

(** X8: two grids, each with at least one row and no row without cells,
    have the same text exactly when they have the same display strings;
    the kind of a cell is not written. *)
Theorem X8_same_text (values1 values2 : grid) :
  values1 <> [] -> values2 <> [] ->
  Forall (fun row => row <> []) values1 ->
  Forall (fun row => row <> []) values2 ->
  Py.join (Py.char Py.LF) (csv_content values1)
  = Py.join (Py.char Py.LF) (csv_content values2)
  <-> map (map str) values1 = map (map str) values2.
Proof.
  intros Hne1 Hne2 Hrows1 Hrows2. split.
  - intros Hdoc. apply (f_equal Reader.parse_csv) in Hdoc.
    rewrite !parse_csv_document in Hdoc by assumption.
    now rewrite !displayed_rows_not_empty in Hdoc by assumption.
  - intros Hstr. now rewrite !csv_content_display, Hstr.
Qed.

Lemma X8_same_text_witness :
  Py.join (Py.char Py.LF) (csv_content [[VInt 1; VBool true]])
  = Py.join (Py.char Py.LF) (csv_content [[VStr "1"; VStr "True"]]).
Proof.
  apply (X8_same_text [[VInt 1; VBool true]] [[VStr "1"; VStr "True"]]).
  - discriminate.
  - discriminate.
  - repeat constructor; discriminate.
  - repeat constructor; discriminate.
  - reflexivity.
Defined.

(** X14: reading back the text of any grid with at least one row gives
    one row for every row of the grid, with the display strings of its
    cells; a row without cells is read as a row with one empty field. *)
Theorem X14_read_back (service : Service) (sheet_name range_name : string)
    (w : World) (values : grid) :
  get_values (values_get service (sheet_name +:+ "!" +:+ range_name)) = values ->
  values <> [] ->
  exists document,
    (export_sheet_to_csv service sheet_name range_name w).1 = Some document
    /\ Reader.parse_csv document = map displayed_row values
    /\ length (Reader.parse_csv document) = length values.
Proof.
  intros Hv Hne. eexists. split.
  - rewrite export_some by now rewrite Hv. rewrite Hv. reflexivity.
  - rewrite parse_csv_document by exact Hne. split; [reflexivity|].
    apply length_map.
Qed.

Lemma X14_read_back_witness :
  exists document,
    (export_sheet_to_csv
       (constant_service ["Sheet1"] (Some [[]; [VStr "a,b"; VInt 2]]))
       "Sheet1" "A:Z" empty_world).1 = Some document
    /\ Reader.parse_csv document = [[EmptyString]; ["a,b"; "2"]]
    /\ length (Reader.parse_csv document) = 2.
Proof.
  apply (X14_read_back
           (constant_service ["Sheet1"] (Some [[]; [VStr "a,b"; VInt 2]]))
           "Sheet1" "A:Z" empty_world [[]; [VStr "a,b"; VInt 2]]).
  - reflexivity.
  - discriminate.
Defined.

(** ** The credentials *)

Section Credentials.

Variable auth : Auth.

(** The ways [get_credentials] returns credentials: from the token file as
    they are, or renewed and written to the token file after the lines of
    the renewal were printed. *)
Lemma get_credentials_some (w w' : World) (creds : Credentials) :
  get_credentials auth w = (Some creds, w') ->
  (w' = w /\ valid creds = true
   /\ exists data, files w !! TOKEN_PICKLE = Some data
                   /\ pickle_load auth data = Some creds)
  \/ (exists cached,
         load_token auth w = Some cached
         /\ usable cached = false
         /\ (renew auth cached).2 = Some creds
         /\ w' = write_file TOKEN_PICKLE (pickle_dump auth creds)
                   (print_all (renew auth cached).1 w)).
Proof.
  unfold get_credentials. destruct (load_token auth w) as [cached|] eqn:Hload;
    [|discriminate].
  destruct (usable cached) eqn:Husable.
  - intros [= -> <-]. left. split; [reflexivity|]. split; [exact Husable|].
    unfold load_token in Hload.
    destruct (files w !! TOKEN_PICKLE) as [data|]; [|discriminate].
    exists data. split; [reflexivity|].
    destruct (pickle_load auth data); [congruence | discriminate].
  - destruct (renew auth cached).2 as [fresh|] eqn:Hrenew; [|discriminate].
    intros [= <- <-]. right. now exists cached.
Qed.

(** The ways [get_credentials] raises: loading the token file raises, or
    the renewal raises after its lines were printed. *)
Lemma get_credentials_none (w w' : World) :
  get_credentials auth w = (None, w') ->
  (w' = w /\ load_token auth w = None)
  \/ (exists cached,
         load_token auth w = Some cached
         /\ usable cached = false
         /\ (renew auth cached).2 = None
         /\ w' = print_all (renew auth cached).1 w).
Proof.
  unfold get_credentials. destruct (load_token auth w) as [cached|] eqn:Hload.
  - destruct (usable cached) eqn:Husable.
    + destruct cached; [discriminate | discriminate].
    + destruct (renew auth cached).2 as [fresh|] eqn:Hrenew; [discriminate|].
      intros [= <-]. right. now exists cached.
  - intros [= <-]. now left.
Qed.

(** What a renewal prints: nothing for a refresh, the lines of the login
    otherwise. *)
Lemma renew_printed (cached : option Credentials) :
  (renew auth cached).1 = []
  \/ renew auth cached = run_local_server auth.
Proof.
  unfold renew. destruct cached as [c|]; [|now right].
  destruct (expired c && truthy (refresh_token c)); [now left | now right].
Qed.

Lemma get_credentials_files_other (w : World) (path : string) :
  path <> TOKEN_PICKLE ->
  files (get_credentials auth w).2 !! path = files w !! path.
Proof.
  intros Hpath. destruct (get_credentials auth w) as [[creds|] w'] eqn:Hget.
  - apply get_credentials_some in Hget
      as [(-> & _) | (cached & _ & _ & _ & ->)]; [reflexivity|].
    simpl. now rewrite lookup_insert_ne.
  - apply get_credentials_none in Hget
      as [(-> & _) | (cached & _ & _ & _ & ->)]; reflexivity.
Qed.

Lemma get_credentials_dirs (w : World) :
  dirs (get_credentials auth w).2 = dirs w.
Proof.
  destruct (get_credentials auth w) as [[creds|] w'] eqn:Hget.
  - apply get_credentials_some in Hget
      as [(-> & _) | (cached & _ & _ & _ & ->)]; reflexivity.
  - apply get_credentials_none in Hget
      as [(-> & _) | (cached & _ & _ & _ & ->)]; reflexivity.
Qed.

End Credentials.



(** X10: when loading the token file, the refresh or the login raises,
    [get_credentials] changes no file and no directory: the token file is
    not written and keeps what it held.  The console is as before, or has
    the lines the login printed before it raised. *)
Theorem X10_failure_writes_nothing (auth : Auth) (w w' : World) :
  get_credentials auth w = (None, w') ->
  files w' = files w
  /\ dirs w' = dirs w
  /\ (stdout w' = stdout w
      \/ (run_local_server auth).2 = None
         /\ stdout w' = stdout w ++ (run_local_server auth).1).
Proof.
  intros Hget.
  apply get_credentials_none in Hget
    as [(-> & _) | (cached & _ & _ & Hrenew & ->)].
  - repeat split. now left.
  - repeat split. cbn [print_all stdout].
    destruct (renew_printed auth cached) as [-> | Hlogin].
    + left. apply app_nil_r.
    + right. now rewrite <- Hlogin.
Qed.

Lemma X10_failure_writes_nothing_witness :
  files (print_all ["Please visit this URL"]
           (write_file TOKEN_PICKLE "cached" empty_world))
  = files (write_file TOKEN_PICKLE "cached" empty_world).
Proof.
  apply (X10_failure_writes_nothing
           {| pickle_load := fun _ => Some {| token := Some "old"; valid := false;
                                              expired := false;
                                              refresh_token := None |};
              pickle_dump := fun _ => "fresh";
              refresh := fun _ => None;
              run_local_server := (["Please visit this URL"], None) |}
           (write_file TOKEN_PICKLE "cached" empty_world)).
  reflexivity.
Defined.

(** X11: after a call that returned credentials, a second call returns
    the same credentials and changes nothing, when the credentials are
    valid at the second call and loading the bytes written for them gives
    them back. *)
Theorem X11_second_call_cached (auth : Auth) (w w' : World) (creds : Credentials) :
  get_credentials auth w = (Some creds, w') ->
  valid creds = true ->
  pickle_load auth (pickle_dump auth creds) = Some creds ->
  get_credentials auth w' = (Some creds, w').
Proof.
  intros Hget Hvalid Hround.
  pose proof Hget as Hcases.
  apply get_credentials_some in Hcases
    as [(-> & _) | (cached & _ & _ & _ & ->)]; [exact Hget|].
  unfold get_credentials, load_token. cbn [write_file files].
  rewrite lookup_insert_eq, Hround. cbn [usable]. now rewrite Hvalid.
Qed.

Lemma X11_second_call_cached_witness :
  get_credentials
    {| pickle_load := fun _ => Some valid_credentials;
       pickle_dump := fun _ => "fresh";
       refresh := fun _ => None;
       run_local_server := (["Please visit this URL"], Some valid_credentials) |}
    (write_file TOKEN_PICKLE "fresh"
       (print_all ["Please visit this URL"] empty_world))
  = (Some valid_credentials,
     write_file TOKEN_PICKLE "fresh"
       (print_all ["Please visit this URL"] empty_world)).
Proof.
  apply (X11_second_call_cached
           {| pickle_load := fun _ => Some valid_credentials;
              pickle_dump := fun _ => "fresh";
              refresh := fun _ => None;
              run_local_server :=
                (["Please visit this URL"], Some valid_credentials) |}
           empty_world).
  - reflexivity.
  - reflexivity.
  - reflexivity.
Defined.

(** ** The whole run *)

Section WholeRun.

Variable os : Os.
Variable auth : Auth.

Lemma download_keeps_other (service : Service) (output_dir : string) (w : World)
    (path : string) :
  ~ has_suffix ".csv" path ->
  files (download_all_sheets os service output_dir w).2 !! path = files w !! path.
Proof.
  intros Hpath. rewrite download_all_sheets_files.
  destruct (download_all_sheets os service output_dir w).1; [|reflexivity].
  destruct (export_tabs_files_cases service output_dir (sheet_titles service)
              w path) as [Hsame | (name & text & _ & -> & _)]; [exact Hsame|].
  exfalso. apply Hpath, filepath_suffix.
Qed.

Lemma download_auth_failure (build : Credentials -> Service) (output_dir : string)
    (w : World) :
  (get_credentials auth w).1 = None ->
  download_all_sheets_auth os auth build output_dir w
  = (false, (get_credentials auth w).2).
Proof.
  unfold download_all_sheets_auth.
  destruct (get_credentials auth w) as [[creds|] w1]; simpl;
    [discriminate | reflexivity].
Qed.

Lemma download_auth_files (build : Credentials -> Service) (output_dir : string)
    (w : World) (path : string) :
  ~ has_suffix ".csv" path ->
  files (download_all_sheets_auth os auth build output_dir w).2 !! path
  = files (get_credentials auth w).2 !! path.
Proof.
  intros Hpath. unfold download_all_sheets_auth.
  destruct (get_credentials auth w) as [[creds|] w1]; simpl; [|reflexivity].
  now apply download_keeps_other.
Qed.

End WholeRun.

(** X12: the export leaves the token file as [get_credentials] left it.
    When [get_credentials] raises, the function stops there: it does not
    return, no file is written, no directory is made, and the console has
    only what [get_credentials] left on it. *)
Theorem X12_export_keeps_token (os : Os) (auth : Auth)
    (build : Credentials -> Service) (output_dir : string) (w : World) :
  files (download_all_sheets_auth os auth build output_dir w).2 !! TOKEN_PICKLE
  = files (get_credentials auth w).2 !! TOKEN_PICKLE
  /\ ((get_credentials auth w).1 = None ->
      download_all_sheets_auth os auth build output_dir w
      = (false, (get_credentials auth w).2)
      /\ files (download_all_sheets_auth os auth build output_dir w).2 = files w
      /\ dirs (download_all_sheets_auth os auth build output_dir w).2 = dirs w).
Proof.
  split.
  - apply download_auth_files, token_pickle_not_csv.
  - intros Hnone. rewrite download_auth_failure by exact Hnone. cbn [snd].
    split; [reflexivity|]. split; [|apply get_credentials_dirs].
    destruct (get_credentials auth w) as [r w1] eqn:Hget. simpl in Hnone. subst r.
    now apply get_credentials_none in Hget
      as [(-> & _) | (cached & _ & _ & _ & ->)].
Qed.

Lemma X12_export_keeps_token_witness :
  download_all_sheets_auth plain_os
    {| pickle_load := fun _ => None;
       pickle_dump := fun _ => "fresh";
       refresh := fun _ => None;
       run_local_server := (["Please visit this URL"], None) |}
    (fun _ => constant_service ["Data"] (Some [[VStr "a"]]))
    "sheets_export" empty_world
  = (false, print_all ["Please visit this URL"] empty_world).
Proof.
  apply (X12_export_keeps_token plain_os
           {| pickle_load := fun _ => None;
              pickle_dump := fun _ => "fresh";
              refresh := fun _ => None;
              run_local_server := (["Please visit this URL"], None) |}
           (fun _ => constant_service ["Data"] (Some [[VStr "a"]]))
           "sheets_export" empty_world).
  reflexivity.
Defined.

(** X13: whatever the spreadsheet ID, the script changes no file other
    than the token file and files whose path ends with .csv; with the
    placeholder ID it changes no file and makes no directory at all, and
    prints the four lines of guidance. *)
Theorem X13_main_frame (os : Os) (auth : Auth)
    (build : string -> Credentials -> Service)
    (SPREADSHEET_ID : string) (w : World) :
  (forall path, path <> TOKEN_PICKLE -> ~ has_suffix ".csv" path ->
                files (main os auth build SPREADSHEET_ID w) !! path
                = files w !! path)
  /\ (SPREADSHEET_ID = PLACEHOLDER ->
      files (main os auth build SPREADSHEET_ID w) = files w
      /\ dirs (main os auth build SPREADSHEET_ID w) = dirs w
      /\ stdout (main os auth build SPREADSHEET_ID w)
         = stdout w ++ ["Please set your SPREADSHEET_ID in the script!";
                        "1. Open your Google Sheet";
                        "2. Copy the ID from the URL (between /d/ and /edit)";
                        "3. Replace YOUR_SPREADSHEET_ID_HERE with the actual ID"]).
Proof.
  split.
  - intros path Htoken Hcsv. unfold main.
    destruct (String.eqb SPREADSHEET_ID PLACEHOLDER); [reflexivity|].
    rewrite download_auth_files by exact Hcsv.
    now apply get_credentials_files_other.
  - intros ->. unfold main. rewrite String.eqb_refl. cbn [print files dirs stdout].
    repeat split. now rewrite <- !app_assoc.
Qed.

Lemma X13_main_frame_witness :
  files (main plain_os
              {| pickle_load := fun _ => None;
                 pickle_dump := fun _ => "fresh";
                 refresh := fun _ => None;
                 run_local_server :=
                   (["Please visit this URL"], Some valid_credentials) |}
              (fun _ _ => constant_service ["Data"] (Some [[VStr "a"]]))
              "1AbC" (write_file "notes.txt" "keep" empty_world))
    !! "notes.txt" = Some "keep".
Proof.
  destruct (X13_main_frame plain_os
              {| pickle_load := fun _ => None;
                 pickle_dump := fun _ => "fresh";
                 refresh := fun _ => None;
                 run_local_server :=
                   (["Please visit this URL"], Some valid_credentials) |}
              (fun _ _ => constant_service ["Data"] (Some [[VStr "a"]]))
              "1AbC" (write_file "notes.txt" "keep" empty_world))
    as (Hframe & _).
  rewrite (Hframe "notes.txt").
  - apply lookup_insert_eq.
  - discriminate.
  - intros (before & Heq).
    assert (Hlen : String.length before = 5).
    { apply (f_equal String.length) in Heq. rewrite length_append in Heq.
      simpl in Heq. lia. }
    do 6 (destruct before as [|? before]; try discriminate).
Defined.
